(** * StateManager: the state container of the finance simulator

    A shallow embedding of [src/lib/state-manager.ts] (class [StateManager]).
    The two collaborators whose sources are not part of the repository
    snapshot, [FinanceEngine] and [FinancialDataValidator], are interfaces
    (type classes) here; every property below is proved for all of their
    implementations, throwing ones included. *)

From stdpp Require Import base gmap strings list pretty.

Set Default Proof Using "Type".

(** ** JavaScript values and exceptions *)

(** The result of running a JavaScript expression: it returns a value or it
    throws.  The only part of a thrown value the program reads is
    [error.message]. *)
Inductive outcome (A : Type) : Type :=
| Ret (a : A)
| Throw (message : string).
Arguments Ret {A} a.
Arguments Throw {A} message.

(** [array.join(sep)] on an array of strings. *)
Fixpoint join (sep : string) (l : list string) : string :=
  match l with
  | [] => ""
  | [x] => x
  | x :: rest => x +:+ sep +:+ join sep rest
  end.

(** [array.map(f)] where [f] may throw: elements are visited left to right
    and the first exception aborts the traversal. *)
Fixpoint mapM {A B : Type} (f : A -> outcome B) (l : list A) : outcome (list B) :=
  match l with
  | [] => Ret []
  | x :: rest =>
      match f x with
      | Throw e => Throw e
      | Ret y =>
          match mapM f rest with
          | Throw e => Throw e
          | Ret ys => Ret (y :: ys)
          end
      end
  end.

(** The values typed [any] in the source: the dataset, the computation
    result, the scenario definitions and the payloads of the mutation
    operations. *)
Class JsAny (any : Type) := {
  null : any;
  (** [if (v)] *)
  truthy : any -> bool;
  (** [JSON.stringify(v)], used as a [Map] key; throws on cyclic structures
      and the like. *)
  JSON_stringify : any -> outcome string;
}.

(** The own enumerable-or-not members every plain object inherits from
    [Object.prototype]; [o[k]] finds them when [o] has no own property [k]. *)
Definition Object_prototype_keys : list string :=
  [ "constructor"; "hasOwnProperty"; "isPrototypeOf"; "propertyIsEnumerable";
    "toLocaleString"; "toString"; "valueOf"; "__defineGetter__";
    "__defineSetter__"; "__lookupGetter__"; "__lookupSetter__"; "__proto__" ].

(** The browser's [localStorage]. *)
Abbreviation Storage := (gmap string string).

(** ** The data model *)

(** [interface ValidationResult] of [./validation]. *)
Record ValidationResult := {
  isValid : bool;
  errors : list string;
  warnings : list string;
}.

Section Model.
Context {any : Type}.

(** [interface AppState]. *)
Record AppState := {
  data : any;
  scenarios : gmap string any;
  currentScenario : string;
  computationResult : any;
  validationResults : list ValidationResult;
  isLoading : bool;
  error : option string;
  lastUpdated : string;
}.

(** [interface StateUpdate]: the tag with the payload it is used with. *)
Inductive StateUpdate :=
| DATA_UPDATE (d : any) (scs : gmap string any)
| SCENARIO_UPDATE (scenarioId : string)
| COMPUTATION_UPDATE (result : any)
| VALIDATION_UPDATE (results : list ValidationResult)
| ERROR_UPDATE (err : option string)
| LOADING_UPDATE (loading : bool).

(** What [importJSON] and [importData] return: [{ success, error? }]. *)
Record ImportResult := {
  success : bool;
  import_error : option string;
}.

(** A subscriber callback, identified the way [indexOf] identifies it: by
    the identity of the function object. *)
Definition Callback := nat.

End Model.
Arguments AppState any : clear implicits.
Arguments StateUpdate any : clear implicits.

(** ** Collaborators *)

(** [class FinanceEngine] of [./finance-engine], as the state manager uses it.
    A method runs on the engine instance and on [localStorage], may change
    both, and may throw after having changed them. *)
Class FinanceEngine (E any : Type) := {
  (** [new FinanceEngine()] *)
  fe_new : Storage -> outcome E * Storage;
  fe_init : E -> Storage -> outcome unit * E * Storage;
  fe_getData : E -> Storage -> outcome any * E * Storage;
  fe_getScenarios : E -> Storage -> outcome (gmap string any) * E * Storage;
  fe_updateMenu : string -> any -> E -> Storage -> outcome unit * E * Storage;
  fe_updateSalesModel : any -> E -> Storage -> outcome unit * E * Storage;
  fe_updateUtilities : list any -> E -> Storage -> outcome unit * E * Storage;
  fe_updateLabor : list any -> E -> Storage -> outcome unit * E * Storage;
  fe_updateFixedCosts : list any -> E -> Storage -> outcome unit * E * Storage;
  fe_compute : E -> Storage -> outcome any * E * Storage;
  fe_importJSON : string -> E -> Storage -> outcome ImportResult * E * Storage;
  fe_exportJSON : E -> Storage -> outcome string * E * Storage;
  fe_save : E -> Storage -> outcome unit * E * Storage;
}.

(** [class FinancialDataValidator] of [./validation]: static, stateless
    predicates. *)
Class FinancialDataValidator (any : Type) := {
  fdv_validateMenuItem : any -> outcome ValidationResult;
  fdv_validateSalesModel : any -> outcome ValidationResult;
  fdv_validateUtilityItem : any -> outcome ValidationResult;
  fdv_validateLaborItem : any -> outcome ValidationResult;
  fdv_validateFixedCost : any -> outcome ValidationResult;
  fdv_validateAllData : any -> outcome ValidationResult;
}.

(** The rest of the host: the clock behind [new Date().toISOString()] (the
    n-th reading of the clock), what each subscriber callback does with the
    state it is handed (return or throw; callbacks are observers: they do not
    write to the object they receive and do not call back into the manager),
    and how many nested calls the call stack takes. *)
Class Runtime (any : Type) := {
  clock : nat -> string;
  callback : Callback -> AppState any -> outcome unit;
  stack_limit : nat;
}.

(** ** The state manager *)

Section StateManager.
Context {any E : Type}.
Context `{!JsAny any, !FinanceEngine E any, !FinancialDataValidator any,
          !Runtime any}.

(** The private fields of [class StateManager], followed by the two pieces
    of the environment its methods reach: [localStorage] and the number of
    clock readings made so far. *)
Record StateManager := {
  state : AppState any;
  financeEngine : E;
  subscribers : list Callback;
  validationCache : gmap string ValidationResult;
  localStorage : Storage;
  ticks : nat;
}.

(** What a run leaves behind for an observer, in the order it happened:
    the transitions [updateState] was asked to apply, the deliveries to
    subscriber callbacks (with the state the callback saw), the lines written
    with [console.error], and the invocations of the whole-dataset
    validator. *)
Inductive event :=
| Transition (u : StateUpdate any)
| Notified (cb : Callback) (s : AppState any)
| ConsoleError (label message : string)
| ValidatorCall (d : any).

(** A method body: it runs on the manager, returns or throws, and leaves
    the manager as it was at that moment, together with the events of the
    run. *)
Definition M (A : Type) : Type :=
  StateManager -> outcome A * StateManager * list event.

Definition ret {A} (a : A) : M A := fun m => (Ret a, m, []).

Definition bind {A B} (c : M A) (k : A -> M B) : M B := fun m =>
  match c m with
  | (Ret a, m1, t1) => let '(r, m2, t2) := k a m1 in (r, m2, t1 ++ t2)
  | (Throw e, m1, t1) => (Throw e, m1, t1)
  end.

Definition throw {A} (e : string) : M A := fun m => (Throw e, m, []).

(** [try { body } catch (error) { handler(error.message) }] *)
Definition try_catch {A} (body : M A) (handler : string -> M A) : M A := fun m =>
  match body m with
  | (Ret a, m1, t1) => (Ret a, m1, t1)
  | (Throw e, m1, t1) => let '(r, m2, t2) := handler e m1 in (r, m2, t1 ++ t2)
  end.

Definition gets {A} (f : StateManager -> A) : M A := fun m => (Ret (f m), m, []).
Definition modify (f : StateManager -> StateManager) : M unit :=
  fun m => (Ret tt, f m, []).
Definition emit (ev : event) : M unit := fun m => (Ret tt, m, [ev]).
Definition lift {A} (o : outcome A) : M A := fun m => (o, m, []).

End StateManager.

Declare Scope sm_scope.
Delimit Scope sm_scope with sm.
Notation "x <- c ;; k" := (bind c (fun x => k))
  (at level 100, c at next level, right associativity) : sm_scope.
Notation "c ;; k" := (bind c (fun _ => k))
  (at level 100, right associativity) : sm_scope.
Open Scope sm_scope.

Section Methods.
Context {any E : Type}.
Context `{!JsAny any, !FinanceEngine E any, !FinancialDataValidator any,
          !Runtime any}.

#[local] Abbreviation SM := (@StateManager any E).
#[local] Abbreviation M := (@M any E).
#[local] Abbreviation event := (@event any).

(** Field assignments. *)
Definition set_state (f : AppState any -> AppState any) (m : SM) : SM :=
  {| state := f (state m); financeEngine := financeEngine m;
     subscribers := subscribers m; validationCache := validationCache m;
     localStorage := localStorage m; ticks := ticks m |}.

Definition set_subscribers (f : list Callback -> list Callback) (m : SM) : SM :=
  {| state := state m; financeEngine := financeEngine m;
     subscribers := f (subscribers m); validationCache := validationCache m;
     localStorage := localStorage m; ticks := ticks m |}.

Definition set_validationCache
    (f : gmap string ValidationResult -> gmap string ValidationResult) (m : SM) : SM :=
  {| state := state m; financeEngine := financeEngine m;
     subscribers := subscribers m; validationCache := f (validationCache m);
     localStorage := localStorage m; ticks := ticks m |}.

Definition set_localStorage (f : Storage -> Storage) (m : SM) : SM :=
  {| state := state m; financeEngine := financeEngine m;
     subscribers := subscribers m; validationCache := validationCache m;
     localStorage := f (localStorage m); ticks := ticks m |}.

Definition set_engine (e : E) (ls : Storage) (m : SM) : SM :=
  {| state := state m; financeEngine := e;
     subscribers := subscribers m; validationCache := validationCache m;
     localStorage := ls; ticks := ticks m |}.

Definition set_lastUpdated (t : string) (s : AppState any) : AppState any :=
  {| data := data s; scenarios := scenarios s;
     currentScenario := currentScenario s;
     computationResult := computationResult s;
     validationResults := validationResults s;
     isLoading := isLoading s; error := error s; lastUpdated := t |}.

(** [this.financeEngine.method(...)]: the engine and the storage keep what
    the method did to them, also when it throws. *)
Definition call_engine {A} (f : E -> Storage -> outcome A * E * Storage) : M A :=
  fun m =>
    let '(r, e, ls) := f (financeEngine m) (localStorage m) in
    (r, set_engine e ls m, []).

(** [new Date().toISOString()] *)
Definition Date_now : M string := fun m =>
  (Ret (clock (ticks m)),
   {| state := state m; financeEngine := financeEngine m;
      subscribers := subscribers m; validationCache := validationCache m;
      localStorage := localStorage m; ticks := S (ticks m) |}, []).

Definition console_error (label message : string) : M unit :=
  emit (ConsoleError label message).

(** [array.forEach(f)] *)
Fixpoint forEach {A} (l : list A) (f : A -> M unit) : M unit :=
  match l with
  | [] => ret tt
  | x :: rest => f x;; forEach rest f
  end.

(** [getInitialState()], given the clock reading. *)
Definition getInitialState (now : string) : AppState any :=
  {| data := null; scenarios := ∅; currentScenario := "base";
     computationResult := null; validationResults := [];
     isLoading := false; error := None; lastUpdated := now |}.

(** The [switch] of [updateState]. *)
Definition apply_update (update : StateUpdate any) (s : AppState any) : AppState any :=
  match update with
  | DATA_UPDATE d scs =>
      {| data := d; scenarios := scs;
         currentScenario := currentScenario s;
         computationResult := computationResult s;
         validationResults := validationResults s;
         isLoading := isLoading s; error := error s;
         lastUpdated := lastUpdated s |}
  | SCENARIO_UPDATE scenarioId =>
      {| data := data s; scenarios := scenarios s;
         currentScenario := scenarioId;
         computationResult := computationResult s;
         validationResults := validationResults s;
         isLoading := isLoading s; error := error s;
         lastUpdated := lastUpdated s |}
  | COMPUTATION_UPDATE result =>
      {| data := data s; scenarios := scenarios s;
         currentScenario := currentScenario s;
         computationResult := result;
         validationResults := validationResults s;
         isLoading := isLoading s; error := error s;
         lastUpdated := lastUpdated s |}
  | VALIDATION_UPDATE results =>
      {| data := data s; scenarios := scenarios s;
         currentScenario := currentScenario s;
         computationResult := computationResult s;
         validationResults := results;
         isLoading := isLoading s; error := error s;
         lastUpdated := lastUpdated s |}
  | ERROR_UPDATE err =>
      {| data := data s; scenarios := scenarios s;
         currentScenario := currentScenario s;
         computationResult := computationResult s;
         validationResults := validationResults s;
         isLoading := false; error := err;
         lastUpdated := lastUpdated s |}
  | LOADING_UPDATE loading =>
      {| data := data s; scenarios := scenarios s;
         currentScenario := currentScenario s;
         computationResult := computationResult s;
         validationResults := validationResults s;
         isLoading := loading;
         error := if loading then None else error s;
         lastUpdated := lastUpdated s |}
  end.

(** [notifySubscribers()]: every registered callback is called with
    [this.state]; an exception of a callback is logged and the loop goes on. *)
Definition invoke (cb : Callback) : M unit := fun m =>
  (callback cb (state m), m, [Notified cb (state m)]).

Definition notifySubscribers : M unit :=
  subs <- gets subscribers;;
  forEach subs (fun cb =>
    try_catch (invoke cb)
      (fun e => console_error "Error in subscriber callback:" e)).

(** [autoSave()] *)
Definition autoSave : M unit :=
  try_catch (call_engine fe_save)
    (fun e => console_error "Auto-save failed:" e).

(** The [try] block of [updateState]. The unused local [previousState] is
    left out. *)
Definition updateState_try (update : StateUpdate any) : M unit :=
  emit (Transition update);;
  modify (set_state (apply_update update));;
  now <- Date_now;;
  modify (set_state (set_lastUpdated now));;
  notifySubscribers;;
  match update with
  | DATA_UPDATE _ _ => autoSave
  | _ => ret tt
  end.

(** [updateState(update)]: the [catch] clause calls [updateState] again with
    an ERROR_UPDATE; [depth] is the room left on the call stack, and running
    out of it is the engine's [RangeError]. *)
Fixpoint updateState_at (depth : nat) (update : StateUpdate any) : M unit :=
  try_catch (updateState_try update)
    (fun e =>
       console_error "Error updating state:" e;;
       match depth with
       | 0 => throw "Maximum call stack size exceeded"
       | S depth' =>
           updateState_at depth'
             (ERROR_UPDATE (Some ("State update failed: " +:+ e)))
       end).

Definition updateState (update : StateUpdate any) : M unit :=
  updateState_at stack_limit update.

(** [subscribe(callback)] registers the callback; the function it returns is
    [unsubscribe callback]. *)
Definition subscribe (cb : Callback) : M unit :=
  modify (set_subscribers (fun subs => subs ++ [cb])).

(** [array.indexOf(x)]: the first position of [x], [None] for -1. *)
Fixpoint indexOf (l : list Callback) (x : Callback) : option nat :=
  match l with
  | [] => None
  | y :: rest =>
      if decide (y = x) then Some 0
      else match indexOf rest x with
           | Some i => Some (S i)
           | None => None
           end
  end.

(** [array.splice(index, 1)] *)
Definition splice1 (index : nat) (l : list Callback) : list Callback :=
  take index l ++ drop (S index) l.

Definition unsubscribe (cb : Callback) : M unit :=
  subs <- gets subscribers;;
  match indexOf subs cb with
  | Some index => modify (set_subscribers (splice1 index))
  | None => ret tt
  end.

(** [validateAllData()] (the private method): the cache is keyed by the
    JSON text of the dataset. A cached [ValidationResult] is an object, so
    [if (cachedResult)] holds exactly when the key is present. *)
Definition validateAllData : M unit :=
  try_catch
    (d <- gets (fun m => data (state m));;
     dataHash <- lift (JSON_stringify d);;
     cache <- gets validationCache;;
     match cache !! dataHash with
     | Some cachedResult =>
         updateState (VALIDATION_UPDATE [cachedResult])
     | None =>
         emit (ValidatorCall d);;
         validationResult <- lift (fdv_validateAllData d);;
         modify (set_validationCache (insert dataHash validationResult));;
         updateState (VALIDATION_UPDATE [validationResult])
     end)
    (fun e => console_error "Validation failed:" e).

(** [computeAndValidate()] *)
Definition computeAndValidate : M unit :=
  try_catch
    (computationResult <- call_engine fe_compute;;
     updateState (COMPUTATION_UPDATE computationResult);;
     validateAllData;;
     updateState (LOADING_UPDATE false))
    (fun e => updateState (ERROR_UPDATE (Some ("Computation failed: " +:+ e)))).

(** [initializeState()] *)
Definition initializeState : M unit :=
  try_catch
    (call_engine fe_init;;
     d <- call_engine fe_getData;;
     scs <- call_engine fe_getScenarios;;
     updateState (DATA_UPDATE d scs);;
     computeAndValidate)
    (fun e => updateState (ERROR_UPDATE (Some ("Failed to initialize: " +:+ e)))).

(** [new StateManager()] in a browser whose storage is [ls] and whose clock
    has been read [t] times. Only the engine's constructor is outside a
    [try]. *)
Definition constructor (ls : Storage) (t : nat)
  : outcome (SM * list event) :=
  match fe_new ls with
  | (Throw e, _) => Throw e
  | (Ret eng, ls') =>
      let m0 := {| state := getInitialState (clock t); financeEngine := eng;
                   subscribers := []; validationCache := ∅;
                   localStorage := ls'; ticks := S t |} in
      match initializeState m0 with
      | (Ret _, m, evs) => Ret (m, evs)
      | (Throw e, _, _) => Throw e
      end
  end.

(** *** The mutation operations *)

Definition updateMenu (menuId : string) (updates : any) : M unit :=
  try_catch
    (updateState (LOADING_UPDATE true);;
     validationResult <- lift (fdv_validateMenuItem updates);;
     if negb (isValid validationResult) then
       updateState (ERROR_UPDATE (Some
         ("Menu validation failed: " +:+ join ", " (errors validationResult))))
     else
       call_engine (fe_updateMenu menuId updates);;
       d <- call_engine fe_getData;;
       scs <- gets (fun m => scenarios (state m));;
       updateState (DATA_UPDATE d scs);;
       computeAndValidate)
    (fun e => updateState (ERROR_UPDATE (Some ("Failed to update menu: " +:+ e)))).

Definition updateSalesModel (updates : any) : M unit :=
  try_catch
    (updateState (LOADING_UPDATE true);;
     validationResult <- lift (fdv_validateSalesModel updates);;
     if negb (isValid validationResult) then
       updateState (ERROR_UPDATE (Some
         ("Sales model validation failed: " +:+ join ", " (errors validationResult))))
     else
       call_engine (fe_updateSalesModel updates);;
       d <- call_engine fe_getData;;
       scs <- gets (fun m => scenarios (state m));;
       updateState (DATA_UPDATE d scs);;
       computeAndValidate)
    (fun e => updateState (ERROR_UPDATE (Some ("Failed to update sales model: " +:+ e)))).

(** [results.some(result => !result.isValid)] *)
Definition hasErrors (results : list ValidationResult) : bool :=
  existsb (fun result => negb (isValid result)) results.

(** [results.filter(result => !result.isValid).flatMap(result => result.errors)] *)
Definition failing_errors (results : list ValidationResult) : list string :=
  flat_map errors (List.filter (fun result => negb (isValid result)) results).

Definition updateUtilities (utilities : list any) : M unit :=
  try_catch
    (updateState (LOADING_UPDATE true);;
     validationResults <- lift (mapM fdv_validateUtilityItem utilities);;
     if hasErrors validationResults then
       updateState (ERROR_UPDATE (Some
         ("Utility validation failed: " +:+ join ", " (failing_errors validationResults))))
     else
       call_engine (fe_updateUtilities utilities);;
       d <- call_engine fe_getData;;
       scs <- gets (fun m => scenarios (state m));;
       updateState (DATA_UPDATE d scs);;
       computeAndValidate)
    (fun e => updateState (ERROR_UPDATE (Some ("Failed to update utilities: " +:+ e)))).

Definition updateLabor (labor : list any) : M unit :=
  try_catch
    (updateState (LOADING_UPDATE true);;
     validationResults <- lift (mapM fdv_validateLaborItem labor);;
     if hasErrors validationResults then
       updateState (ERROR_UPDATE (Some
         ("Labor validation failed: " +:+ join ", " (failing_errors validationResults))))
     else
       call_engine (fe_updateLabor labor);;
       d <- call_engine fe_getData;;
       scs <- gets (fun m => scenarios (state m));;
       updateState (DATA_UPDATE d scs);;
       computeAndValidate)
    (fun e => updateState (ERROR_UPDATE (Some ("Failed to update labor: " +:+ e)))).

Definition updateFixedCosts (fixedCosts : list any) : M unit :=
  try_catch
    (updateState (LOADING_UPDATE true);;
     validationResults <- lift (mapM fdv_validateFixedCost fixedCosts);;
     if hasErrors validationResults then
       updateState (ERROR_UPDATE (Some
         ("Fixed cost validation failed: " +:+ join ", " (failing_errors validationResults))))
     else
       call_engine (fe_updateFixedCosts fixedCosts);;
       d <- call_engine fe_getData;;
       scs <- gets (fun m => scenarios (state m));;
       updateState (DATA_UPDATE d scs);;
       computeAndValidate)
    (fun e => updateState (ERROR_UPDATE (Some ("Failed to update fixed costs: " +:+ e)))).

(** *** Import and export *)

(** [result.error || 'Import failed']: an absent and an empty message are
    both falsy. *)
Definition error_or_default (err : option string) : string :=
  match err with
  | Some e => if decide (e = "") then "Import failed" else e
  | None => "Import failed"
  end.

Definition importData (jsonString : string) : M ImportResult :=
  try_catch
    (updateState (LOADING_UPDATE true);;
     result <- call_engine (fe_importJSON jsonString);;
     (if success result then
        d <- call_engine fe_getData;;
        scs <- call_engine fe_getScenarios;;
        updateState (DATA_UPDATE d scs);;
        computeAndValidate;;
        modify (set_validationCache (fun _ => ∅))
      else
        updateState (ERROR_UPDATE (Some (error_or_default (import_error result)))));;
     ret result)
    (fun e =>
       updateState (ERROR_UPDATE (Some ("Import failed: " +:+ e)));;
       ret {| success := false; import_error := Some e |}).

Definition exportData : M string :=
  try_catch (call_engine fe_exportJSON)
    (fun e => console_error "Export failed:" e;; throw e).

(** *** Getters *)

(** [getState()] returns [{ ...this.state }]: a new object with the same
    field values. (Object identity is the subject of the module [Heap]
    below.) *)
Definition getState : M (AppState any) := gets state.
Definition getData : M any := gets (fun m => data (state m)).
Definition getComputationResult : M any := gets (fun m => computationResult (state m)).
Definition getValidationResults : M (list ValidationResult) :=
  gets (fun m => validationResults (state m)).
Definition getError : M (option string) := gets (fun m => error (state m)).
Definition getIsLoading : M bool := gets (fun m => isLoading (state m)).
Definition getCurrentScenario : M string := gets (fun m => currentScenario (state m)).
Definition getScenarios : M (gmap string any) := gets (fun m => scenarios (state m)).

(** *** Scenario management *)

(** The truth value of [record[key]] for a plain object [record]: an own
    property decides by its value, a name inherited from [Object.prototype]
    is a function or an object (truthy), anything else is [undefined]. *)
Definition has_truthy (record : gmap string any) (key : string) : bool :=
  match record !! key with
  | Some v => truthy v
  | None => bool_decide (key ∈ Object_prototype_keys)
  end.

Definition setCurrentScenario (scenarioId : string) : M unit :=
  scs <- gets (fun m => scenarios (state m));;
  if has_truthy scs scenarioId then
    updateState (SCENARIO_UPDATE scenarioId)
  else
    updateState (ERROR_UPDATE (Some ("Scenario " +:+ scenarioId +:+ " not found"))).

(** *** Error handling and reset *)

Definition clearError : M unit := updateState (ERROR_UPDATE None).

(** [this.financeEngine = new FinanceEngine()] *)
Definition new_engine : M unit := fun m =>
  match fe_new (localStorage m) with
  | (Ret e, ls) => (Ret tt, set_engine e ls m, [])
  | (Throw msg, ls) => (Throw msg, set_localStorage (fun _ => ls) m, [])
  end.

Definition reset : M unit :=
  try_catch
    (updateState (LOADING_UPDATE true);;
     modify (set_localStorage (delete "finance_data"));;
     modify (set_localStorage (delete "finance_scenarios"));;
     new_engine;;
     call_engine fe_init;;
     d <- call_engine fe_getData;;
     scs <- call_engine fe_getScenarios;;
     updateState (DATA_UPDATE d scs);;
     computeAndValidate;;
     modify (set_validationCache (fun _ => ∅)))
    (fun e => updateState (ERROR_UPDATE (Some ("Reset failed: " +:+ e)))).

(** *** The public interface *)

(** One call of a public method, with its arguments; [Call_unsubscribe cb]
    is a call of a function that [subscribe(cb)] returned. *)
Inductive call :=
| Call_updateMenu (menuId : string) (updates : any)
| Call_updateSalesModel (updates : any)
| Call_updateUtilities (utilities : list any)
| Call_updateLabor (labor : list any)
| Call_updateFixedCosts (fixedCosts : list any)
| Call_importData (jsonString : string)
| Call_exportData
| Call_getState
| Call_getData
| Call_getComputationResult
| Call_getValidationResults
| Call_getError
| Call_isLoading
| Call_setCurrentScenario (scenarioId : string)
| Call_getCurrentScenario
| Call_getScenarios
| Call_clearError
| Call_reset
| Call_subscribe (cb : Callback)
| Call_unsubscribe (cb : Callback).

(** Run a call and drop the value it returns. *)
Definition forget {A} (c : M A) : M unit := _ <- c;; ret tt.

Definition perform (c : call) : M unit :=
  match c with
  | Call_updateMenu menuId updates => updateMenu menuId updates
  | Call_updateSalesModel updates => updateSalesModel updates
  | Call_updateUtilities utilities => updateUtilities utilities
  | Call_updateLabor labor => updateLabor labor
  | Call_updateFixedCosts fixedCosts => updateFixedCosts fixedCosts
  | Call_importData jsonString => forget (importData jsonString)
  | Call_exportData => forget exportData
  | Call_getState => forget getState
  | Call_getData => forget getData
  | Call_getComputationResult => forget getComputationResult
  | Call_getValidationResults => forget getValidationResults
  | Call_getError => forget getError
  | Call_isLoading => forget getIsLoading
  | Call_setCurrentScenario scenarioId => setCurrentScenario scenarioId
  | Call_getCurrentScenario => forget getCurrentScenario
  | Call_getScenarios => forget getScenarios
  | Call_clearError => clearError
  | Call_reset => reset
  | Call_subscribe cb => subscribe cb
  | Call_unsubscribe cb => unsubscribe cb
  end.

(** The manager after a sequence of calls. A call that throws leaves the
    manager as it was when the exception left the method. *)
Definition after (c : call) (m : SM) : SM := (perform c m).1.2.


(** Projections of a run's events. *)
Definition transitions (evs : list event) : list (StateUpdate any) :=
  omap (fun ev => match ev with Transition u => Some u | _ => None end) evs.

Definition notifications (evs : list event) : list (Callback * AppState any) :=
  omap (fun ev => match ev with Notified cb s => Some (cb, s) | _ => None end) evs.

Definition validator_calls (evs : list event) : list any :=
  omap (fun ev => match ev with ValidatorCall d => Some d | _ => None end) evs.

Definition console_errors (evs : list event) : list (string * string) :=
  omap (fun ev => match ev with ConsoleError l e => Some (l, e) | _ => None end) evs.

(** *** What one transition does, in closed form

    [updateState] is a straight line: the events of one call and the
    manager it leaves are functions of the update and of the manager. *)

(** What one callback's turn in [notifySubscribers] leaves in the log. *)
Definition delivery (s : AppState any) (cb : Callback) : list event :=
  Notified cb s ::
  match callback cb s with
  | Ret _ => []
  | Throw e => [ConsoleError "Error in subscriber callback:" e]
  end.

Definition notify_events (subs : list Callback) (s : AppState any) : list event :=
  flat_map (delivery s) subs.

(** The state the subscribers are handed after [update]. *)
Definition stamped (update : StateUpdate any) (m : SM) : AppState any :=
  set_lastUpdated (clock (ticks m)) (apply_update update (state m)).

Definition is_data_update (update : StateUpdate any) : bool :=
  match update with DATA_UPDATE _ _ => true | _ => false end.

Definition commit (update : StateUpdate any) (m : SM) : SM :=
  let '(_, e, ls) :=
    if is_data_update update then fe_save (financeEngine m) (localStorage m)
    else (Ret tt, financeEngine m, localStorage m) in
  {| state := stamped update m; financeEngine := e;
     subscribers := subscribers m; validationCache := validationCache m;
     localStorage := ls; ticks := S (ticks m) |}.

Definition autoSave_events (update : StateUpdate any) (m : SM) : list event :=
  if is_data_update update then
    match (fe_save (financeEngine m) (localStorage m)).1.1 with
    | Ret _ => []
    | Throw e => [ConsoleError "Auto-save failed:" e]
    end
  else [].

Definition commit_events (update : StateUpdate any) (m : SM) : list event :=
  Transition update :: notify_events (subscribers m) (stamped update m)
  ++ autoSave_events update m.

(** *** Vocabulary of the properties *)

(** The part of the manager that the compute-and-validate sequence leaves
    alone. *)
Definition view (m : SM)
  : any * gmap string any * string * list Callback :=
  (data (state m), scenarios (state m), currentScenario (state m), subscribers m).


(** The calls that take the scenario map from the engine. *)
Definition replaces_scenarios (c : call) : bool :=
  match c with
  | Call_importData _ | Call_reset => true
  | _ => false
  end.




(** The payloads of the VALIDATION transitions of a run. *)
Definition validation_outcomes (evs : list event) : list (list ValidationResult) :=
  omap (fun update =>
          match update with VALIDATION_UPDATE results => Some results | _ => None end)
       (transitions evs).


End Methods.

Arguments commit : simpl never.
Arguments commit_events : simpl never.
Arguments transitions : simpl never.
Arguments notifications : simpl never.
Arguments validator_calls : simpl never.
Arguments console_errors : simpl never.

(** ** Object identity: what [{ ...this.state }] copies

    The records above identify an object with the values of its fields, which
    is all the transitions need. What [getState()] shares with the manager
    is a matter of addresses: objects live in a heap, a field holds a
    primitive or the address of another object, and the spread syntax copies
    the fields of one object into a new one. *)

Module Heap.

Definition loc := nat.

Inductive value :=
| Null
| Bool (b : bool)
| Num (n : Z)
| Str (s : string)
| Ref (l : loc).

(** An object is the map of its own properties; the heap maps addresses to
    objects. *)
Abbreviation object := (gmap string value).
Abbreviation heap := (gmap loc object).

(** [o.key] for the object at [l]. *)
Definition get (h : heap) (l : loc) (key : string) : option value :=
  h !! l ≫= (fun o => o !! key).

(** [o.key = v] for the object at [l]. *)
Definition set (h : heap) (l : loc) (key : string) (v : value) : heap :=
  alter (insert key v) l h.

(** [{ ...o }] for the object at [l]: a new object with the same own
    properties; a property that holds an address is copied as that address. *)
Definition spread (h : heap) (l : loc) : loc * heap :=
  let l' := fresh (dom h) in
  (l', <[l' := default ∅ (h !! l)]> h).

(** [getState()] and [getData()] of a manager whose [this.state] is the
    object at [this_state]. *)
Definition getState (this_state : loc) (h : heap) : loc * heap :=
  spread h this_state.

Definition getData (this_state : loc) (h : heap) : option value :=
  get h this_state "data".

(** The object [root.p1.p2...pn] leads to, if every step is an object. *)
Fixpoint resolve (h : heap) (root : loc) (path : list string) : option loc :=
  match path with
  | [] => Some root
  | key :: rest =>
      match get h root key with
      | Some (Ref l) => resolve h l rest
      | _ => None
      end
  end.

(** [root.p1.p2...pn.key = v]; where the path leads to no object the
    assignment throws and the heap stays as it is. *)
Definition assign (h : heap) (root : loc) (path : list string)
    (key : string) (v : value) : heap :=
  match resolve h root path with
  | Some l => set h l key v
  | None => h
  end.

(** A manager state object at address 0 whose dataset is the object at
    address 1. *)
Definition example_heap : heap :=
  {[ 0 := {[ "data" := Ref 1; "currentScenario" := Str "base";
             "isLoading" := Bool false ]};
     1 := {[ "menus" := Str "soup" ]} ]}.

End Heap.

(** ** A small engine and validator

    The repository's engine and validator are not among the sources. This
    implementation of the two interfaces stands in for them where the manager
    is run on concrete inputs: its datasets are a list of fixed-cost amounts
    and, possibly, a menu list; the whole-dataset validator reads the menu
    list and throws when there is none; [save] throws when the total exceeds
    the storage quota; [init] throws on stored text that is not JSON. *)

Module Demo.

Inductive value :=
| Null
| Num (n : Z)
| Dataset (hasMenus : bool) (fixedCosts : list Z).

Definition total (l : list Z) : Z := foldr Z.add 0%Z l.

Definition amount (v : value) : Z :=
  match v with Num n => n | _ => 0%Z end.

Definition stringify (v : value) : string :=
  match v with
  | Null => "null"
  | Num n => pretty n
  | Dataset hasMenus l =>
      (if hasMenus then "{menus:[],fixedCosts:[" else "{fixedCosts:[")
      +:+ join "," (pretty <$> l) +:+ "]}"
  end.

#[global] Instance value_js : JsAny value := {
  null := Null;
  truthy v :=
    match v with
    | Null => false
    | Num n => bool_decide (n ≠ 0%Z)
    | Dataset _ _ => true
    end;
  JSON_stringify v := Ret (stringify v);
}.

Record engine := {
  ds : value;
  scs : gmap string value;
}.

Definition default_scenarios : gmap string value :=
  {[ "base" := Num 1; "optimistic" := Num 2 ]}.

Definition ok : ImportResult := {| success := true; import_error := None |}.

#[global] Instance demo_engine : FinanceEngine engine value := {
  fe_new ls := (Ret {| ds := Null; scs := ∅ |}, ls);
  fe_init e ls :=
    match ls !! "finance_data" with
    | None => (Ret tt, {| ds := Dataset true [100%Z]; scs := default_scenarios |}, ls)
    | Some txt =>
        if decide (txt = "defaults") then
          (Ret tt, {| ds := Dataset true [100%Z]; scs := default_scenarios |}, ls)
        else if decide (txt = "no-menus") then
          (Ret tt, {| ds := Dataset false [100%Z]; scs := default_scenarios |}, ls)
        else (Throw "Unexpected token in JSON", e, ls)
    end;
  fe_getData e ls := (Ret (ds e), e, ls);
  fe_getScenarios e ls := (Ret (scs e), e, ls);
  fe_updateMenu _ _ e ls :=
    match ds e with
    | Dataset _ l => (Ret tt, {| ds := Dataset true l; scs := scs e |}, ls)
    | _ => (Throw "Cannot set properties of null", e, ls)
    end;
  fe_updateSalesModel _ e ls := (Ret tt, e, ls);
  fe_updateUtilities _ e ls := (Ret tt, e, ls);
  fe_updateLabor _ e ls := (Ret tt, e, ls);
  fe_updateFixedCosts items e ls :=
    match ds e with
    | Dataset b _ => (Ret tt, {| ds := Dataset b (amount <$> items); scs := scs e |}, ls)
    | _ => (Throw "Cannot set properties of null", e, ls)
    end;
  fe_compute e ls :=
    match ds e with
    | Dataset _ l => (Ret (Num (total l)), e, ls)
    | _ => (Throw "Cannot read properties of null", e, ls)
    end;
  fe_importJSON txt e ls :=
    if decide (txt = "defaults") then
      (Ret ok, {| ds := Dataset true [100%Z]; scs := default_scenarios |}, ls)
    else if decide (txt = "no-menus") then
      (Ret ok, {| ds := Dataset false [100%Z]; scs := {[ "imported" := Num 1 ]} |}, ls)
    else if decide (txt = "") then
      (Ret {| success := false; import_error := None |}, e, ls)
    else if decide (txt = "{") then
      (Throw "Unexpected end of JSON input", e, ls)
    else
      (Ret {| success := false; import_error := Some "Invalid data format" |}, e, ls);
  fe_exportJSON e ls :=
    match ds e with
    | Null => (Throw "Nothing to export", e, ls)
    | d => (Ret (stringify d), e, ls)
    end;
  fe_save e ls :=
    match ds e with
    | Dataset b l =>
        if bool_decide (1000 < total l)%Z then (Throw "QuotaExceededError", e, ls)
        else (Ret tt, e, <["finance_data" := if b then "defaults" else "no-menus"]> ls)
    | _ => (Ret tt, e, ls)
    end;
}.

Definition check_amount (v : value) : outcome ValidationResult :=
  match v with
  | Num n =>
      Ret {| isValid := bool_decide (0 ≤ n)%Z;
             errors := if bool_decide (0 ≤ n)%Z then []
                       else ["Amount must not be negative"];
             warnings := [] |}
  | _ => Throw "Cannot read properties of null"
  end.

#[global] Instance demo_validator : FinancialDataValidator value := {
  fdv_validateMenuItem v :=
    match v with
    | Num n =>
        Ret {| isValid := bool_decide (0 < n)%Z;
               errors := if bool_decide (0 < n)%Z then []
                         else ["Price must be positive"];
               warnings := [] |}
    | _ =>
        Ret {| isValid := false;
               errors := ["Name is required"; "Price must be positive"];
               warnings := [] |}
    end;
  fdv_validateSalesModel := check_amount;
  fdv_validateUtilityItem := check_amount;
  fdv_validateLaborItem := check_amount;
  fdv_validateFixedCost := check_amount;
  fdv_validateAllData d :=
    match d with
    | Dataset true l =>
        Ret {| isValid := forallb (fun n => bool_decide (0 ≤ n)%Z) l;
               errors := []; warnings := [] |}
    | Dataset false _ =>
        Throw "Cannot read properties of undefined (reading 'forEach')"
    | _ => Throw "Cannot read properties of null"
    end;
}.

(** Callbacks with an odd identity throw. *)
#[global] Instance demo_runtime : Runtime value := {
  clock n := "T" +:+ pretty n;
  callback cb _ := if Nat.even cb then Ret tt else Throw "subscriber failed";
  stack_limit := 1000;
}.

(** The manager [new StateManager()] builds over the storage [ls]. *)
Definition boot (ls : Storage) : @StateManager value engine :=
  {| state := getInitialState (clock 0); financeEngine := {| ds := Null; scs := ∅ |};
     subscribers := []; validationCache := ∅; localStorage := ls; ticks := 1 |}.

Definition start (ls : Storage) : @StateManager value engine :=
  (initializeState (boot ls)).1.2.

(** A fresh browser; one whose stored dataset has no menu list; one whose
    stored dataset is not JSON. *)
Definition fresh_storage : Storage := ∅.
Definition no_menus_storage : Storage := {[ "finance_data" := "no-menus" ]}.
Definition corrupt_storage : Storage := {[ "finance_data" := "{" ]}.

(** Managers with one subscriber, built over the first two storages, and
    the first of them as a subscriber finds it in the middle of a pipeline,
    right after LOADING(true). *)
Definition observed : @StateManager value engine :=
  after (Call_subscribe 0) (start fresh_storage).
Definition observed_no_menus : @StateManager value engine :=
  after (Call_subscribe 0) (start no_menus_storage).
Definition loading : @StateManager value engine :=
  commit (LOADING_UPDATE true) observed.

End Demo.

(** ** Vocabulary of the further properties *)

Section Extensions.
Context {any E : Type}.
Context `{!JsAny any, !FinanceEngine E any, !FinancialDataValidator any,
          !Runtime any}.

#[local] Abbreviation SM := (@StateManager any E).
#[local] Abbreviation M := (@M any E).
#[local] Abbreviation event := (@event any).
#[local] Abbreviation call := (@call any).

(** *** The five mutation methods side by side

    The five methods differ in the validator they ask, in the engine method
    they call and in the two messages they build. What a method's validation
    step amounts to: the payload is accepted ([None]), it is rejected with the
    message the method puts in the error field, or a validator threw. *)
Definition single_verdict (label : string) (o : outcome ValidationResult)
  : outcome (option string) :=
  match o with
  | Throw e => Throw e
  | Ret validationResult =>
      Ret (if negb (isValid validationResult)
           then Some (label +:+ join ", " (errors validationResult))
           else None)
  end.

Definition list_verdict (label : string) (o : outcome (list ValidationResult))
  : outcome (option string) :=
  match o with
  | Throw e => Throw e
  | Ret validationResults =>
      Ret (if hasErrors validationResults
           then Some (label +:+ join ", " (failing_errors validationResults))
           else None)
  end.

Definition is_mutation (c : call) : bool :=
  match c with
  | Call_updateMenu _ _ | Call_updateSalesModel _ | Call_updateUtilities _
  | Call_updateLabor _ | Call_updateFixedCosts _ => true
  | _ => false
  end.

Definition verdict (c : call) : outcome (option string) :=
  match c with
  | Call_updateMenu _ updates =>
      single_verdict "Menu validation failed: " (fdv_validateMenuItem updates)
  | Call_updateSalesModel updates =>
      single_verdict "Sales model validation failed: " (fdv_validateSalesModel updates)
  | Call_updateUtilities utilities =>
      list_verdict "Utility validation failed: " (mapM fdv_validateUtilityItem utilities)
  | Call_updateLabor labor =>
      list_verdict "Labor validation failed: " (mapM fdv_validateLaborItem labor)
  | Call_updateFixedCosts fixedCosts =>
      list_verdict "Fixed cost validation failed: " (mapM fdv_validateFixedCost fixedCosts)
  | _ => Ret None
  end.

(** The engine method a mutation calls once the payload is accepted. *)
Definition engine_update (c : call) : E -> Storage -> outcome unit * E * Storage :=
  match c with
  | Call_updateMenu menuId updates => fe_updateMenu menuId updates
  | Call_updateSalesModel updates => fe_updateSalesModel updates
  | Call_updateUtilities utilities => fe_updateUtilities utilities
  | Call_updateLabor labor => fe_updateLabor labor
  | Call_updateFixedCosts fixedCosts => fe_updateFixedCosts fixedCosts
  | _ => fun e ls => (Ret tt, e, ls)
  end.

(** What a mutation puts before the message of an exception. *)
Definition failure_prefix (c : call) : string :=
  match c with
  | Call_updateMenu _ _ => "Failed to update menu: "
  | Call_updateSalesModel _ => "Failed to update sales model: "
  | Call_updateUtilities _ => "Failed to update utilities: "
  | Call_updateLabor _ => "Failed to update labor: "
  | Call_updateFixedCosts _ => "Failed to update fixed costs: "
  | _ => ""
  end.

(** The body the five methods share, with the three parts as parameters. *)
Definition mutation_pipeline
    (checked : outcome (option string))
    (update : E -> Storage -> outcome unit * E * Storage)
    (prefix : string) : M unit :=
  try_catch
    (updateState (LOADING_UPDATE true);;
     rejected <- lift checked;;
     match rejected with
     | Some message => updateState (ERROR_UPDATE (Some message))
     | None =>
         call_engine update;;
         d <- call_engine fe_getData;;
         scs <- gets (fun m => scenarios (state m));;
         updateState (DATA_UPDATE d scs);;
         computeAndValidate
     end)
    (fun e => updateState (ERROR_UPDATE (Some (prefix +:+ e)))).

(** *** Steps and what they keep *)

(** A relation between the manager before a run, the manager after it and
    the events in between holds of a method when it holds of every run of
    it. *)
Definition respects {A} (R : SM -> SM -> list event -> Prop) (c : M A) : Prop :=
  forall m o m' evs, c m = (o, m', evs) -> R m m' evs.

(** The transitions the methods make: a VALIDATION transition carries the
    one outcome the cache holds for the JSON text of the dataset, a SCENARIO
    transition a name that passed the guard. *)
Definition made_update (m : SM) (update : StateUpdate any) : Prop :=
  match update with
  | VALIDATION_UPDATE results =>
      exists h v,
        results = [v]
        /\ JSON_stringify (data (state m)) = Ret h
        /\ validationCache m !! h = Some v
  | SCENARIO_UPDATE scenarioId =>
      has_truthy (scenarios (state m)) scenarioId = true
  | _ => True
  end.

(** What the methods other than [subscribe] and [unsubscribe] are made of:
    transitions, calls of the engine, writes to the storage, lines on the
    console, invocations of the whole-dataset validator (whose outcome, when
    it returns, goes into the cache under the dataset's JSON text), and
    clearing the cache. *)
Inductive steps : SM -> SM -> list event -> Prop :=
| steps_none (m : SM) :
    steps m m []
| steps_seq (m1 m2 m3 : SM) (evs1 evs2 : list event) :
    steps m1 m2 evs1 -> steps m2 m3 evs2 -> steps m1 m3 (evs1 ++ evs2)
| steps_transition (m : SM) (update : StateUpdate any) :
    made_update m update ->
    steps m (commit update m) (commit_events update m)
| steps_engine (m : SM) (e : E) (ls : Storage) :
    steps m (set_engine e ls m) []
| steps_storage (m : SM) (f : Storage -> Storage) :
    steps m (set_localStorage f m) []
| steps_console (m : SM) (label message : string) :
    steps m m [ConsoleError label message]
| steps_validated (m : SM) (h : string) (v : ValidationResult) :
    JSON_stringify (data (state m)) = Ret h ->
    validationCache m !! h = None ->
    fdv_validateAllData (data (state m)) = Ret v ->
    steps m (set_validationCache (insert h v) m) [ValidatorCall (data (state m))]
| steps_validator_threw (m : SM) (e : string) :
    fdv_validateAllData (data (state m)) = Throw e ->
    steps m m [ValidatorCall (data (state m))]
| steps_cache_cleared (m : SM) :
    steps m (set_validationCache (fun _ => ∅) m) [].

(** The calls that edit the list of subscribers. *)
Definition edits_subscribers (c : call) : bool :=
  match c with
  | Call_subscribe _ | Call_unsubscribe _ => true
  | _ => false
  end.


(** The events of one call. *)
Definition log (c : call) (m : SM) : list event := (perform c m).2.



(** The managers a program can hold: one that the constructor built, after
    any number of public calls. *)
Inductive reachable : SM -> Prop :=
| reach_new (ls : Storage) (t : nat) (m : SM) (evs : list event) :
    constructor ls t = Ret (m, evs) -> reachable m
| reach_call (c : call) (m : SM) :
    reachable m -> reachable (after c m).

(** Every cached outcome is what the validator returned for a dataset with
    that JSON text. *)
Definition cache_sound (m : SM) : Prop :=
  forall h v, validationCache m !! h = Some v ->
    exists d, JSON_stringify d = Ret h /\ fdv_validateAllData d = Ret v.


End Extensions.

(** ** The validation hook

    [useValidationResults] of [src/hooks/useFinanceState.ts]: what it derives
    from the [validationResults] of the state. ([hasErrors] above is its
    [hasErrors] too: the same expression.) *)

Module Hooks.

(** [validationResults.some(result => result.warnings.length > 0)] *)
Definition hasWarnings (validationResults : list ValidationResult) : bool :=
  existsb (fun result => bool_decide (0 < length (warnings result))) validationResults.

(** [validationResults.flatMap(result => result.errors)] *)
Definition allErrors (validationResults : list ValidationResult) : list string :=
  flat_map errors validationResults.

(** [validationResults.flatMap(result => result.warnings)] *)
Definition allWarnings (validationResults : list ValidationResult) : list string :=
  flat_map warnings validationResults.

End Hooks.


(** ** A fragile engine

    A second implementation of the engine's interface, for the failures the
    small engine cannot show: its constructor throws when the storage is
    locked, and an import leaves it with a dataset that [getData] cannot
    read. The engine's only state is whether that has happened. *)

Module Fragile.
Import Demo.

#[export] Instance fragile_engine : FinanceEngine bool value := {
  fe_new ls :=
    match ls !! "locked" with
    | Some _ => (Throw "The operation is insecure", ls)
    | None => (Ret false, ls)
    end;
  fe_init e ls := (Ret tt, e, ls);
  fe_getData e ls :=
    if e then (Throw "Cannot read properties of undefined", e, ls)
    else (Ret (Dataset true []), e, ls);
  fe_getScenarios e ls := (Ret ∅, e, ls);
  fe_updateMenu _ _ e ls := (Ret tt, e, ls);
  fe_updateSalesModel _ e ls := (Ret tt, e, ls);
  fe_updateUtilities _ e ls := (Ret tt, e, ls);
  fe_updateLabor _ e ls := (Ret tt, e, ls);
  fe_updateFixedCosts _ e ls := (Ret tt, e, ls);
  fe_compute e ls := (Ret (Num 0), e, ls);
  fe_importJSON _ e ls := (Ret ok, true, <["finance_data" := "imported"]> ls);
  fe_exportJSON e ls := (Ret "{}", e, ls);
  fe_save e ls := (Ret tt, e, ls);
}.



End Fragile.

(** * Properties *)

Section OneTransition.
Context {any E : Type}.
Context `{!JsAny any, !FinanceEngine E any, !FinancialDataValidator any,
          !Runtime any}.

#[local] Abbreviation SM := (@StateManager any E).
#[local] Abbreviation M := (@M any E).
#[local] Abbreviation event := (@event any).

(** ** One transition *)

Lemma forEach_notify (subs : list Callback) (m : SM) :
  forEach subs (fun cb =>
    try_catch (invoke cb)
      (fun e => console_error "Error in subscriber callback:" e)) m
  = (Ret tt, m, notify_events subs (state m)).
Proof.
  induction subs as [|cb subs IH]; [reflexivity|].
  cbn [forEach]. unfold bind at 1.
  unfold try_catch at 1, invoke at 1, delivery.
  cbn [notify_events flat_map]. unfold delivery.
  destruct (callback cb (state m)) as [[]|e]; cbn.
  - rewrite IH. reflexivity.
  - rewrite IH. reflexivity.
Qed.

Lemma notifySubscribers_run (m : SM) :
  notifySubscribers m = (Ret tt, m, notify_events (subscribers m) (state m)).
Proof.
  unfold notifySubscribers, bind, gets. rewrite forEach_notify. reflexivity.
Qed.

Lemma updateState_try_run (update : StateUpdate any) (m : SM) :
  updateState_try update m = (Ret tt, commit update m, commit_events update m).
Proof.
  unfold updateState_try, bind, emit, modify, Date_now.
  rewrite notifySubscribers_run.
  unfold commit, commit_events, autoSave_events, stamped.
  destruct update; cbn; rewrite ?app_nil_r; try reflexivity.
  unfold autoSave, try_catch, call_engine; cbn.
  destruct (fe_save (financeEngine m) (localStorage m)) as [[[[]|e] e'] ls]; cbn;
    rewrite ?app_nil_r; reflexivity.
Qed.

(** The [catch] clause of [updateState] never runs: nothing in its [try]
    block lets an exception out. Hence the recursion stops at once, for
    every stack depth. *)
Lemma updateState_at_run (depth : nat) (update : StateUpdate any) (m : SM) :
  updateState_at depth update m
  = (Ret tt, commit update m, commit_events update m).
Proof.
  destruct depth; cbn [updateState_at]; unfold try_catch;
    rewrite updateState_try_run; reflexivity.
Qed.

Lemma updateState_run (update : StateUpdate any) (m : SM) :
  updateState update m = (Ret tt, commit update m, commit_events update m).
Proof. apply updateState_at_run. Qed.

(** What a transition keeps and what it changes. *)
Lemma commit_state (update : StateUpdate any) (m : SM) :
  state (commit update m) = stamped update m.
Proof. unfold commit. repeat case_match; reflexivity. Qed.

Lemma commit_subscribers (update : StateUpdate any) (m : SM) :
  subscribers (commit update m) = subscribers m.
Proof. unfold commit. repeat case_match; reflexivity. Qed.

Lemma commit_validationCache (update : StateUpdate any) (m : SM) :
  validationCache (commit update m) = validationCache m.
Proof. unfold commit. repeat case_match; reflexivity. Qed.

Lemma commit_engine (update : StateUpdate any) (m : SM) :
  is_data_update update = false ->
  financeEngine (commit update m) = financeEngine m
  /\ localStorage (commit update m) = localStorage m.
Proof. unfold commit. intros ->. split; reflexivity. Qed.

Lemma transitions_app (evs1 evs2 : list event) :
  transitions (evs1 ++ evs2) = transitions evs1 ++ transitions evs2.
Proof. apply omap_app. Qed.

Lemma notifications_app (evs1 evs2 : list event) :
  notifications (evs1 ++ evs2) = notifications evs1 ++ notifications evs2.
Proof. apply omap_app. Qed.

Lemma validator_calls_app (evs1 evs2 : list event) :
  validator_calls (evs1 ++ evs2) = validator_calls evs1 ++ validator_calls evs2.
Proof. apply omap_app. Qed.

Lemma transitions_cons (ev : event) (evs : list event) :
  transitions (ev :: evs)
  = match ev with Transition u => [u] | _ => [] end ++ transitions evs.
Proof. destruct ev; reflexivity. Qed.

Lemma notifications_cons (ev : event) (evs : list event) :
  notifications (ev :: evs)
  = match ev with Notified cb s => [(cb, s)] | _ => [] end ++ notifications evs.
Proof. destruct ev; reflexivity. Qed.

Lemma validator_calls_cons (ev : event) (evs : list event) :
  validator_calls (ev :: evs)
  = match ev with ValidatorCall d => [d] | _ => [] end ++ validator_calls evs.
Proof. destruct ev; reflexivity. Qed.

Lemma transitions_nil : transitions (@nil event) = [].
Proof. reflexivity. Qed.

Lemma notifications_nil : notifications (@nil event) = [].
Proof. reflexivity. Qed.

Lemma validator_calls_nil : validator_calls (@nil event) = [].
Proof. reflexivity. Qed.

Lemma notify_events_transitions (subs : list Callback) (s : AppState any) :
  transitions (notify_events subs s) = [].
Proof.
  induction subs as [|cb subs IH]; [reflexivity|].
  cbn [notify_events flat_map]. rewrite transitions_app.
  unfold notify_events in IH. rewrite IH.
  unfold delivery. destruct (callback cb s); reflexivity.
Qed.

Lemma notify_events_validator_calls (subs : list Callback) (s : AppState any) :
  validator_calls (notify_events subs s) = [].
Proof.
  induction subs as [|cb subs IH]; [reflexivity|].
  cbn [notify_events flat_map]. rewrite validator_calls_app.
  unfold notify_events in IH. rewrite IH.
  unfold delivery. destruct (callback cb s); reflexivity.
Qed.

Lemma notify_events_notifications (subs : list Callback) (s : AppState any) :
  notifications (notify_events subs s) = map (fun cb => (cb, s)) subs.
Proof.
  induction subs as [|cb subs IH]; [reflexivity|].
  cbn [notify_events flat_map]. rewrite notifications_app.
  unfold notify_events in IH. rewrite IH.
  unfold delivery. destruct (callback cb s); reflexivity.
Qed.

Lemma commit_events_transitions (update : StateUpdate any) (m : SM) :
  transitions (commit_events update m) = [update].
Proof.
  unfold commit_events.
  change (transitions ([Transition update]
            ++ (notify_events (subscribers m) (stamped update m)
                ++ autoSave_events update m)) = [update]).
  rewrite !transitions_app, notify_events_transitions.
  unfold autoSave_events. repeat case_match; reflexivity.
Qed.

Lemma commit_events_validator_calls (update : StateUpdate any) (m : SM) :
  validator_calls (commit_events update m) = [].
Proof.
  unfold commit_events.
  change (validator_calls ([Transition update]
            ++ (notify_events (subscribers m) (stamped update m)
                ++ autoSave_events update m)) = []).
  rewrite !validator_calls_app, notify_events_validator_calls.
  unfold autoSave_events. repeat case_match; reflexivity.
Qed.

Lemma commit_events_notifications (update : StateUpdate any) (m : SM) :
  notifications (commit_events update m)
  = map (fun cb => (cb, stamped update m)) (subscribers m).
Proof.
  unfold commit_events.
  change (notifications ([Transition update]
            ++ (notify_events (subscribers m) (stamped update m)
                ++ autoSave_events update m))
          = map (fun cb => (cb, stamped update m)) (subscribers m)).
  rewrite !notifications_app, notify_events_notifications.
  unfold autoSave_events. repeat case_match; cbn; rewrite app_nil_r; reflexivity.
Qed.

End OneTransition.

Create Rewrite HintDb events.
#[global] Hint Rewrite
  @transitions_nil @notifications_nil @validator_calls_nil
  @transitions_app @notifications_app @validator_calls_app
  @transitions_cons @notifications_cons @validator_calls_cons
  @commit_events_transitions @commit_events_notifications
  @commit_events_validator_calls : events.

(** Running a method symbolically: unfold the sequencing, replace every
    [updateState] by its closed form, split on what the collaborators
    return. *)
Ltac unfold_ops :=
  unfold forget, console_error in *;
  unfold try_catch, bind, gets, lift, emit, modify, call_engine, throw, ret,
    new_engine in *.

Ltac exec :=
  unfold_ops; cbv beta in *;
  repeat first
    [ rewrite updateState_run in * |- *
    | progress (cbn in *; simplify_eq)
    | case_match ].

Ltac norm :=
  repeat first
    [ rewrite commit_state in * |- *
    | rewrite commit_subscribers in * |- *
    | rewrite commit_validationCache in * |- *
    | progress (unfold stamped in *; cbn in * ) ].

(** Projections of a run's events, pushed through its structure. *)
Ltac events := autorewrite with events in *; cbn [app] in *.

Section Facts.
Context {any E : Type}.
Context `{!JsAny any, !FinanceEngine E any, !FinancialDataValidator any,
          !Runtime any}.

#[local] Abbreviation SM := (@StateManager any E).
#[local] Abbreviation M := (@M any E).
#[local] Abbreviation event := (@event any).

(** ** What the compute-and-validate sequence leaves alone *)

Lemma validateAllData_frame (m m' : SM) (o : outcome unit) (evs : list event) :
  validateAllData m = (o, m', evs) ->
  o = Ret tt /\ view m' = view m.
Proof.
  unfold validateAllData, view. intros Hrun. exec; norm; auto.
Qed.

Lemma computeAndValidate_frame (m m' : SM) (o : outcome unit) (evs : list event) :
  computeAndValidate m = (o, m', evs) ->
  o = Ret tt /\ view m' = view m.
Proof.
  unfold computeAndValidate. intros Hrun. exec.
  all: repeat match goal with
         | H : validateAllData _ = _ |- _ =>
             apply validateAllData_frame in H; destruct H as [? H]
         end.
  all: unfold view in *; norm; simplify_eq/=; auto.
  all: split; congruence.
Qed.

(** ** Error dismissal *)

(** C7 (as amended): [clearError()] sets the error field to null and forces
    [isLoading] to false; the dataset, the scenarios, the current scenario,
    the computation result and the validation results keep their values
    (the timestamp is refreshed), as do the engine, the storage, the
    subscriber list and the validation cache; the one transition is
    ERROR(null). *)
Theorem clearError_effect (m : SM) :
  exists m' evs,
    clearError m = (Ret tt, m', evs)
    /\ error (state m') = None
    /\ isLoading (state m') = false
    /\ data (state m') = data (state m)
    /\ scenarios (state m') = scenarios (state m)
    /\ currentScenario (state m') = currentScenario (state m)
    /\ computationResult (state m') = computationResult (state m)
    /\ validationResults (state m') = validationResults (state m)
    /\ financeEngine m' = financeEngine m
    /\ localStorage m' = localStorage m
    /\ subscribers m' = subscribers m
    /\ validationCache m' = validationCache m
    /\ transitions evs = [ERROR_UPDATE None].
Proof.
  unfold clearError. rewrite updateState_run.
  eexists _, _. split; [reflexivity|].
  rewrite commit_events_transitions.
  destruct (commit_engine (ERROR_UPDATE None) m eq_refl) as [-> ->].
  norm. repeat split; reflexivity.
Qed.


(** ** Subscriptions *)






(** What [unsubscribe] does to the list, in one equation. *)
Lemma unsubscribe_run (cb : Callback) (m : SM) :
  unsubscribe cb m
  = (Ret tt,
     match indexOf (subscribers m) cb with
     | Some index => set_subscribers (splice1 index) m
     | None => m
     end, []).
Proof.
  unfold unsubscribe. exec; reflexivity.
Qed.





(** ** Scenario selection *)


(** What [setCurrentScenario] does, in one equation. *)
Lemma setCurrentScenario_run (scenarioId : string) (m : SM) :
  setCurrentScenario scenarioId m
  = updateState
      (if has_truthy (scenarios (state m)) scenarioId
       then SCENARIO_UPDATE scenarioId
       else ERROR_UPDATE (Some ("Scenario " +:+ scenarioId +:+ " not found"))) m.
Proof.
  unfold setCurrentScenario. unfold bind, gets.
  destruct (has_truthy (scenarios (state m)) scenarioId);
    destruct (updateState _ m) as [[[] ?] ?]; reflexivity.
Qed.




(** ** Exceptions *)

Lemma validateAllData_summary (m m' : SM) (o : outcome unit) (evs : list event) :
  validateAllData m = (o, m', evs) ->
  isLoading (state m') = isLoading (state m)
  /\ error (state m') = error (state m)
  /\ (transitions evs = []
      \/ exists v, transitions evs = [VALIDATION_UPDATE [v]]).
Proof.
  unfold validateAllData. intros Hrun. exec.
  all: events; norm; eauto.

Qed.






(** ** The validation gate *)

Lemma commit_financeEngine (update : StateUpdate any) (m : SM) :
  is_data_update update = false ->
  financeEngine (commit update m) = financeEngine m.
Proof. intros Hu. apply (commit_engine update m Hu). Qed.

Lemma commit_localStorage (update : StateUpdate any) (m : SM) :
  is_data_update update = false ->
  localStorage (commit update m) = localStorage m.
Proof. intros Hu. apply (commit_engine update m Hu). Qed.

(** C2: when [validateMenuItem] rejects the payload, [updateMenu] leaves the
    dataset as it is (the engine is not called), sets the error field to
    "Menu validation failed: " followed by the validator's error messages
    joined with ", ", and its transitions are LOADING(true) and that ERROR:
    no COMPUTATION and no VALIDATION (and no DATA) transition. *)
Theorem updateMenu_validation_gate
    (menuId : string) (updates : any) (m : SM) (vr : ValidationResult) :
  fdv_validateMenuItem updates = Ret vr ->
  isValid vr = false ->
  exists m' evs,
    updateMenu menuId updates m = (Ret tt, m', evs)
    /\ data (state m') = data (state m)
    /\ financeEngine m' = financeEngine m
    /\ localStorage m' = localStorage m
    /\ error (state m')
       = Some ("Menu validation failed: " +:+ join ", " (errors vr))
    /\ transitions evs
       = [LOADING_UPDATE true;
          ERROR_UPDATE (Some ("Menu validation failed: " +:+ join ", " (errors vr)))]
    /\ (forall update, update ∈ transitions evs ->
          match update with
          | COMPUTATION_UPDATE _ | VALIDATION_UPDATE _ | DATA_UPDATE _ _ => False
          | _ => True
          end)
    /\ validator_calls evs = [].
Proof.
  intros Hvr Hinvalid.
  unfold updateMenu. unfold_ops. cbv beta.
  rewrite updateState_run. cbn. rewrite Hvr. cbn. rewrite Hinvalid. cbn.
  rewrite updateState_run. cbn.
  eexists _, _. split; [reflexivity|].
  rewrite !commit_financeEngine, !commit_localStorage by reflexivity.
  events. norm.
  repeat split; try reflexivity.
  intros update Hin.
  apply elem_of_cons in Hin as [->|Hin]; [exact I|].
  apply elem_of_cons in Hin as [->|Hin]; [exact I|].
  apply elem_of_nil in Hin as [].
Qed.
(** ** The paths of the compute-and-validate sequence *)

Lemma validateAllData_unserializable (m : SM) (e : string) :
  JSON_stringify (data (state m)) = Throw e ->
  validateAllData m = (Ret tt, m, [ConsoleError "Validation failed:" e]).
Proof. intros Hs. unfold validateAllData. unfold_ops. cbn. rewrite Hs. reflexivity. Qed.

Lemma validateAllData_hit (m : SM) (h : string) (v : ValidationResult) :
  JSON_stringify (data (state m)) = Ret h ->
  validationCache m !! h = Some v ->
  validateAllData m
  = (Ret tt, commit (VALIDATION_UPDATE [v]) m,
     commit_events (VALIDATION_UPDATE [v]) m).
Proof.
  intros Hs Hc. unfold validateAllData. unfold_ops. cbn. rewrite Hs. cbn.
  rewrite Hc, updateState_run. reflexivity.
Qed.

Lemma validateAllData_miss (m : SM) (h : string) (v : ValidationResult) :
  JSON_stringify (data (state m)) = Ret h ->
  validationCache m !! h = None ->
  fdv_validateAllData (data (state m)) = Ret v ->
  validateAllData m
  = (Ret tt,
     commit (VALIDATION_UPDATE [v]) (set_validationCache (insert h v) m),
     ValidatorCall (data (state m))
     :: commit_events (VALIDATION_UPDATE [v]) (set_validationCache (insert h v) m)).
Proof.
  intros Hs Hc Hv. unfold validateAllData. unfold_ops. cbn. rewrite Hs. cbn.
  rewrite Hc. cbn. rewrite Hv. cbn. rewrite updateState_run. reflexivity.
Qed.

Lemma validateAllData_throws (m : SM) (h e : string) :
  JSON_stringify (data (state m)) = Ret h ->
  validationCache m !! h = None ->
  fdv_validateAllData (data (state m)) = Throw e ->
  validateAllData m
  = (Ret tt, m,
     [ValidatorCall (data (state m)); ConsoleError "Validation failed:" e]).
Proof.
  intros Hs Hc Hv. unfold validateAllData. unfold_ops. cbn. rewrite Hs. cbn.
  rewrite Hc. cbn. rewrite Hv. reflexivity.
Qed.

Lemma computeAndValidate_computed
    (m : SM) (r : any) (e : E) (ls : Storage) :
  fe_compute (financeEngine m) (localStorage m) = (Ret r, e, ls) ->
  computeAndValidate m
  = let m1 := commit (COMPUTATION_UPDATE r) (set_engine e ls m) in
    let '(_, m2, evs) := validateAllData m1 in
    (Ret tt, commit (LOADING_UPDATE false) m2,
     commit_events (COMPUTATION_UPDATE r) (set_engine e ls m)
     ++ evs ++ commit_events (LOADING_UPDATE false) m2).
Proof.
  intros Hc. unfold computeAndValidate. unfold_ops. cbv beta. rewrite Hc. cbn.
  rewrite updateState_run. cbn.
  destruct (validateAllData _) as [[o m2] evs] eqn:Hv.
  destruct (validateAllData_frame _ _ _ _ Hv) as [-> _].
  rewrite updateState_run. cbn. rewrite ?app_nil_r. reflexivity.
Qed.

Lemma computeAndValidate_failed
    (m : SM) (msg : string) (e : E) (ls : Storage) :
  fe_compute (financeEngine m) (localStorage m) = (Throw msg, e, ls) ->
  computeAndValidate m
  = (Ret tt,
     commit (ERROR_UPDATE (Some ("Computation failed: " +:+ msg))) (set_engine e ls m),
     commit_events (ERROR_UPDATE (Some ("Computation failed: " +:+ msg)))
       (set_engine e ls m)).
Proof.
  intros Hc. unfold computeAndValidate. unfold_ops. cbv beta. rewrite Hc. cbn.
  rewrite updateState_run. reflexivity.
Qed.

(** ** The successful pipeline *)


Lemma commit_data_engine (d : any) (scs : gmap string any) (m : SM) :
  financeEngine (commit (DATA_UPDATE d scs) m)
  = (fe_save (financeEngine m) (localStorage m)).1.2
  /\ localStorage (commit (DATA_UPDATE d scs) m)
     = (fe_save (financeEngine m) (localStorage m)).2.
Proof.
  unfold commit. cbn.
  destruct (fe_save (financeEngine m) (localStorage m)) as [[? ?] ?]. split; reflexivity.
Qed.


(** ** The validation cache *)

(** The three ways a compute-and-validate run can go, as far as validation is
    concerned: no outcome (the computation threw, the dataset did not
    serialise, or the validator was called and threw), an outcome taken from
    the cache, an outcome computed by the validator and added to the cache. *)
Lemma computeAndValidate_cases (m m' : SM) (o : outcome unit) (evs : list event) :
  computeAndValidate m = (o, m', evs) ->
  (validation_outcomes evs = []
   /\ validationCache m' = validationCache m
   /\ ((exists msg,
          (fe_compute (financeEngine m) (localStorage m)).1.1 = Throw msg
          /\ transitions evs
             = [ERROR_UPDATE (Some ("Computation failed: " +:+ msg))]
          /\ validator_calls evs = [])
       \/ (exists e,
             JSON_stringify (data (state m)) = Throw e
             /\ validator_calls evs = [])
       \/ validator_calls evs = [data (state m)]
          /\ exists h e,
               JSON_stringify (data (state m)) = Ret h
               /\ validationCache m !! h = None
               /\ fdv_validateAllData (data (state m)) = Throw e))
  \/ (exists h v,
        JSON_stringify (data (state m)) = Ret h
        /\ validationCache m !! h = Some v
        /\ validation_outcomes evs = [[v]]
        /\ validator_calls evs = []
        /\ validationCache m' = validationCache m)
  \/ (exists h v,
        JSON_stringify (data (state m)) = Ret h
        /\ validationCache m !! h = None
        /\ fdv_validateAllData (data (state m)) = Ret v
        /\ validation_outcomes evs = [[v]]
        /\ validator_calls evs = [data (state m)]
        /\ validationCache m' = <[h := v]> (validationCache m)).
Proof.
  intros Hrun.
  destruct (fe_compute (financeEngine m) (localStorage m)) as [[[r|msg] e] ls] eqn:Hc.
  - rewrite (computeAndValidate_computed _ _ _ _ Hc) in Hrun. cbv zeta in Hrun.
    set (m1 := commit (COMPUTATION_UPDATE r) (set_engine e ls m)) in *.
    assert (Hd : data (state m1) = data (state m)) by (unfold m1; norm; reflexivity).
    assert (Hcache : validationCache m1 = validationCache m)
      by (unfold m1; norm; reflexivity).
    destruct (JSON_stringify (data (state m1))) as [h|e'] eqn:Hs.
    + destruct (validationCache m1 !! h) as [v|] eqn:Hl.
      * rewrite (validateAllData_hit _ _ _ Hs Hl) in Hrun. simplify_eq.
        right. left. exists h, v. rewrite <- Hd, <- Hcache.
        unfold validation_outcomes. events. norm. done.
      * destruct (fdv_validateAllData (data (state m1))) as [v|e'] eqn:Hv.
        -- rewrite (validateAllData_miss _ _ _ Hs Hl Hv) in Hrun. simplify_eq.
           right. right. exists h, v. rewrite <- Hd, <- Hcache.
           unfold validation_outcomes. events. norm. rewrite Hd. done.
        -- rewrite (validateAllData_throws _ _ _ Hs Hl Hv) in Hrun. simplify_eq.
           left. rewrite <- Hd, <- Hcache.
           unfold validation_outcomes. events. norm.
           split; [reflexivity|]. split; [reflexivity|]. right. right.
           rewrite Hd. split; [reflexivity|]. rewrite <- Hd. eauto.
    + rewrite (validateAllData_unserializable _ _ Hs) in Hrun. simplify_eq.
      left. rewrite <- Hd. unfold validation_outcomes. events. norm.
      split; [reflexivity|]. split; [reflexivity|]. right. left. eauto.
  - rewrite (computeAndValidate_failed _ _ _ _ Hc) in Hrun. simplify_eq.
    left. unfold validation_outcomes. events. norm.
    split; [reflexivity|]. split; [reflexivity|]. left. eauto.
Qed.

(** In every case the validator is invoked at most once in a run, and only
    on the current dataset. *)
Lemma computeAndValidate_calls (m m' : SM) (o : outcome unit) (evs : list event) :
  computeAndValidate m = (o, m', evs) ->
  validator_calls evs = [] \/ validator_calls evs = [data (state m)].
Proof.
  intros Hrun. apply computeAndValidate_cases in Hrun.
  destruct Hrun as [(_ & _ & [(? & _ & _ & ->)|[(? & _ & ->)|[-> _]]])
                   |[(? & ? & _ & _ & _ & -> & _)
                    |(? & ? & _ & _ & _ & _ & -> & _)]]; auto.
Qed.

(** A run whose dataset's JSON text is in the cache: the validator is not
    invoked, and the only outcome the run can emit is the cached one; it
    emits it whenever the computation returns. *)
Lemma computeAndValidate_cached
    (m m' : SM) (o : outcome unit) (evs : list event) (h : string) (v : ValidationResult) :
  computeAndValidate m = (o, m', evs) ->
  JSON_stringify (data (state m)) = Ret h ->
  validationCache m !! h = Some v ->
  validator_calls evs = []
  /\ (validation_outcomes evs = [] \/ validation_outcomes evs = [[v]])
  /\ (forall x e ls,
        fe_compute (financeEngine m) (localStorage m) = (Ret x, e, ls) ->
        validation_outcomes evs = [[v]]).
Proof.
  intros Hrun Hs Hhit.
  apply computeAndValidate_cases in Hrun
    as [(Hnone & _ & [(msg & Hthrow & _ & Hcalls)
                     |[(e' & Hthrow & _)|[_ (h' & e' & Hs' & Hmiss & _)]]])
       |[(h' & v' & Hs' & Hhit' & Hout & Hcalls & _)
        |(h' & v' & Hs' & Hmiss & _)]].
  - split; [exact Hcalls|]. split; [left; exact Hnone|].
    intros x e ls Hc. rewrite Hc in Hthrow. discriminate Hthrow.
  - congruence.
  - congruence.
  - assert (v' = v) as -> by congruence.
    split; [exact Hcalls|]. split; [right; exact Hout|]. intros; exact Hout.
  - congruence.
Qed.

(** C5 (as amended): take two runs of the compute-and-validate sequence on
    datasets with the same JSON text, the second starting with the cache the
    first one left. Provided the whole-dataset validator does not throw on the
    first dataset, the validator is invoked at most once across the two runs,
    and a validation outcome emitted by the second run equals the one emitted
    by the first. Once the first run has emitted an outcome, the second run
    does not invoke the validator at all, and it emits that same outcome
    whenever its computation returns. *)
Theorem validation_cache_reuse
    (m0 m1 n0 n1 : SM) (o1 o2 : outcome unit) (evs1 evs2 : list event) (h : string) :
  computeAndValidate m0 = (o1, m1, evs1) ->
  computeAndValidate n0 = (o2, n1, evs2) ->
  validationCache n0 = validationCache m1 ->
  JSON_stringify (data (state m0)) = Ret h ->
  JSON_stringify (data (state n0)) = Ret h ->
  (forall e, fdv_validateAllData (data (state m0)) <> Throw e) ->
  length (validator_calls (evs1 ++ evs2)) <= 1
  /\ (forall rs1 rs2,
        rs1 ∈ validation_outcomes evs1 -> rs2 ∈ validation_outcomes evs2 ->
        rs2 = rs1)
  /\ (validation_outcomes evs1 <> [] ->
      validator_calls evs2 = []
      /\ forall x e ls,
           fe_compute (financeEngine n0) (localStorage n0) = (Ret x, e, ls) ->
           validation_outcomes evs2 = validation_outcomes evs1).
Proof.
  intros Hrun1 Hrun2 Hcache Hs1 Hs2 Hreturns.
  rewrite validator_calls_app, length_app.
  assert (Hreuse : forall v,
            validationCache m1 !! h = Some v ->
            validation_outcomes evs1 = [[v]] ->
            length (validator_calls evs1) <= 1 ->
            length (validator_calls evs1) + length (validator_calls evs2) <= 1
            /\ (forall rs1 rs2,
                  rs1 ∈ validation_outcomes evs1 -> rs2 ∈ validation_outcomes evs2 ->
                  rs2 = rs1)
            /\ (validation_outcomes evs1 <> [] ->
                validator_calls evs2 = []
                /\ forall x e ls,
                     fe_compute (financeEngine n0) (localStorage n0) = (Ret x, e, ls) ->
                     validation_outcomes evs2 = validation_outcomes evs1)).
  { intros v Hhit Hout1 Hlen. rewrite <- Hcache in Hhit.
    destruct (computeAndValidate_cached _ _ _ _ _ _ Hrun2 Hs2 Hhit)
      as (Hcalls2 & Hout2 & Hemits).
    rewrite Hcalls2, Hout1. cbn [length].
    split; [lia|]. split.
    - intros rs1 rs2 Hin1 Hin2. apply list_elem_of_singleton in Hin1 as ->.
      destruct Hout2 as [Hout2|Hout2]; rewrite Hout2 in Hin2.
      + apply elem_of_nil in Hin2 as [].
      + apply list_elem_of_singleton in Hin2. exact Hin2.
    - intros _. split; [reflexivity | exact Hemits]. }
  apply computeAndValidate_cases in Hrun1
    as [(Hnone1 & _ & Hwhy)
       |[(h1 & v1 & Hs1' & Hhit1 & Hout1 & Hcalls1 & Hc1)
        |(h1 & v1 & Hs1' & _ & _ & Hout1 & Hcalls1 & Hc1)]].
  - assert (Hcalls1 : validator_calls evs1 = []).
    { destruct Hwhy as [(? & _ & _ & Hcalls)
                       |[(? & _ & Hcalls)|[_ (? & e & _ & _ & Hthrow)]]];
        [exact Hcalls | exact Hcalls | exfalso; eapply Hreturns, Hthrow]. }
    rewrite Hcalls1, Hnone1. cbn [length].
    split; [|split; [intros rs1 rs2 Hin; apply elem_of_nil in Hin as [] | done]].
    destruct (computeAndValidate_calls _ _ _ _ Hrun2) as [->| ->]; cbn; lia.
  - assert (h1 = h) as -> by congruence.
    apply (Hreuse v1); [rewrite Hc1; exact Hhit1 | exact Hout1 |].
    rewrite Hcalls1. cbn. lia.
  - assert (h1 = h) as -> by congruence.
    apply (Hreuse v1); [rewrite Hc1; apply lookup_insert_eq | exact Hout1 |].
    rewrite Hcalls1. cbn. lia.
Qed.

(** ** Import and the cache *)

Lemma computeAndValidate_no_data (m m' : SM) (o : outcome unit) (evs : list event) :
  computeAndValidate m = (o, m', evs) ->
  forall d scs, DATA_UPDATE d scs ∉ transitions evs.
Proof.
  intros Hrun d scs.
  destruct (fe_compute (financeEngine m) (localStorage m)) as [[[r|msg] e] ls] eqn:Hc.
  - rewrite (computeAndValidate_computed _ _ _ _ Hc) in Hrun. cbv zeta in Hrun.
    destruct (validateAllData _) as [[o' m2] evs'] eqn:Hv.
    apply validateAllData_summary in Hv as (_ & _ & Htr). simplify_eq.
    events. destruct Htr as [->|[v ->]]; cbn; intros Hin;
      repeat (apply elem_of_cons in Hin as [Hin|Hin]; [discriminate Hin|]);
      apply elem_of_nil in Hin as [].
  - rewrite (computeAndValidate_failed _ _ _ _ Hc) in Hrun. simplify_eq.
    events. intros Hin.
    repeat (apply elem_of_cons in Hin as [Hin|Hin]; [discriminate Hin|]);
      apply elem_of_nil in Hin as [].
Qed.

(** The ways [importData] can go: the import went through (the engine
    reported success and handed over dataset and scenarios), and then the
    events are LOADING(true), DATA, a compute-and-validate run, and the cache
    is cleared last; or it did not, and then there is no DATA transition and
    the result is not a success carrying one. *)
Lemma importData_cases
    (jsonString : string) (m m' : SM) (o : outcome ImportResult) (evs : list event) :
  importData jsonString m = (o, m', evs) ->
  (exists r d scs n n' evs',
      o = Ret r /\ success r = true
      /\ validationCache n = validationCache m
      /\ data (state n) = d
      /\ computeAndValidate n = (Ret tt, n', evs')
      /\ transitions evs
         = LOADING_UPDATE true :: DATA_UPDATE d scs :: transitions evs'
      /\ validator_calls evs = validator_calls evs'
      /\ m' = set_validationCache (fun _ => ∅) n')
  \/ ((forall d scs, DATA_UPDATE d scs ∉ transitions evs)
      /\ validation_outcomes evs = []
      /\ validator_calls evs = []
      /\ exists r, o = Ret r /\ success r = false).
Proof.
  intros Hrun. unfold importData in Hrun. exec.
  all: try (right; unfold validation_outcomes; events;
            split; [intros d scs Hin;
                    repeat (apply elem_of_cons in Hin as [Hin|Hin]; [discriminate Hin|]);
                    apply elem_of_nil in Hin as []|];
            split; [reflexivity|]; split; [reflexivity|];
            eexists; split; [reflexivity|]; first [reflexivity | assumption
                                                  | apply not_true_is_false; assumption]).
  all: match goal with
       | H : computeAndValidate _ = _ |- _ =>
           pose proof (computeAndValidate_frame _ _ _ _ H) as [? _]; simplify_eq
       end.
  all: left; eexists _, _, _, _, _, _.
  all: split; [reflexivity|]. all: split; [assumption|].
  all: split; [|split; [|split; [eassumption|]]].
  all: cycle 2.
  all: try (events; rewrite ?app_nil_r; split; [reflexivity|]; split; reflexivity).
  all: norm; reflexivity.
Qed.
(** C6 (as amended): when a successful [importData] returns, the validation
    cache is empty. Hence the next compute-and-validate run, from any manager
    state that still has this cache, takes no outcome from the cache: every
    validation outcome it emits is the result of an invocation of the
    whole-dataset validator made in that run on the current dataset, and
    whenever its computation returns and the dataset serialises the validator
    is invoked, also for a dataset whose JSON text was a key of the cache
    before the import. (Runs after that one may reuse what has been cached
    since the import.) *)
Theorem import_clears_cache
    (jsonString : string) (m m' : SM) (r : ImportResult) (evs : list event) :
  importData jsonString m = (Ret r, m', evs) ->
  success r = true ->
  validationCache m' = ∅
  /\ forall (n n' : SM) (o : outcome unit) (evs' : list event),
       validationCache n = validationCache m' ->
       computeAndValidate n = (o, n', evs') ->
       (forall rs, rs ∈ validation_outcomes evs' ->
          validator_calls evs' = [data (state n)]
          /\ exists v, fdv_validateAllData (data (state n)) = Ret v /\ rs = [v])
       /\ (forall x e ls h,
             fe_compute (financeEngine n) (localStorage n) = (Ret x, e, ls) ->
             JSON_stringify (data (state n)) = Ret h ->
             validator_calls evs' = [data (state n)]).
Proof.
  intros Hrun Hsuccess.
  assert (Hempty : validationCache m' = ∅).
  { apply importData_cases in Hrun
      as [(r' & d & scs & n & n' & evs' & ? & _ & _ & _ & _ & _ & _ & ->)
         |(_ & _ & _ & r' & ? & Hfail)]; [reflexivity|].
    simplify_eq. congruence. }
  split; [exact Hempty|].
  intros n n' o evs' Hcache Hcycle.
  rewrite Hempty in Hcache.
  apply computeAndValidate_cases in Hcycle
    as [(Hnone & _ & Hwhy)
       |[(h & v & _ & Hhit & _)
        |(h & v & Hs & _ & Hv & Hout & Hcalls & _)]].
  - split.
    + intros rs Hin. rewrite Hnone in Hin. apply elem_of_nil in Hin as [].
    + intros x e ls h Hc Hs.
      destruct Hwhy as [(msg & Hthrow & _)|[(e' & Hthrow & _)|[Hcalls _]]].
      * rewrite Hc in Hthrow. discriminate Hthrow.
      * congruence.
      * exact Hcalls.
  - rewrite Hcache, lookup_empty in Hhit. discriminate Hhit.
  - split.
    + intros rs Hin. rewrite Hout in Hin. apply list_elem_of_singleton in Hin as ->.
      split; [exact Hcalls|]. eauto.
    + intros. exact Hcalls.
Qed.

(** C10: inside [importData] the compute-and-validate pass runs before the
    cache is cleared. So when the JSON text of the imported dataset (the one
    of the DATA transition) is a key of the cache as it was before the call,
    the call does not invoke the whole-dataset validator: every VALIDATION
    transition it emits carries the outcome cached before the import, one is
    emitted as soon as the computation succeeds, and the cache is cleared
    only afterwards, for later runs. *)
Theorem import_validates_from_cache
    (jsonString : string) (m m' : SM) (o : outcome ImportResult) (evs : list event)
    (d : any) (scs : gmap string any) (h : string) (v : ValidationResult) :
  importData jsonString m = (o, m', evs) ->
  DATA_UPDATE d scs ∈ transitions evs ->
  JSON_stringify d = Ret h ->
  validationCache m !! h = Some v ->
  validator_calls evs = []
  /\ (forall rs, rs ∈ validation_outcomes evs -> rs = [v])
  /\ (forall x, COMPUTATION_UPDATE x ∈ transitions evs ->
        validation_outcomes evs = [[v]])
  /\ validationCache m' = ∅.
Proof.
  intros Hrun Hdata Hs Hcached.
  apply importData_cases in Hrun
    as [(r & d' & scs' & n & n' & evs' & -> & _ & Hcache & Hd & Hcycle & Htr & Hcalls & ->)
       |(Hnodata & _)]; [|exfalso; eapply Hnodata, Hdata].
  assert (d' = d) as ->.
  { rewrite Htr in Hdata.
    apply elem_of_cons in Hdata as [Hdata|Hdata]; [discriminate Hdata|].
    apply elem_of_cons in Hdata as [Hdata|Hdata]; [congruence|].
    exfalso. eapply computeAndValidate_no_data; eassumption. }
  assert (Hout : validation_outcomes evs = validation_outcomes evs').
  { unfold validation_outcomes. rewrite Htr. reflexivity. }
  rewrite Hcalls, Hout. clear Hout Hcalls.
  pose proof Hcycle as Hcases.
  apply computeAndValidate_cases in Hcases
    as [(Hnone & _ & Hwhy)
       |[(h' & v' & Hs' & Hhit & Hout & Hcalls & _)
        |(h' & v' & Hs' & Hmiss & _)]].
  - destruct Hwhy as [(msg & Hthrow & Htr' & Hcalls)
                     |[(e' & Hthrow & _)|[_ (h' & e' & Hs' & Hmiss & _)]]].
    + split; [exact Hcalls|]. rewrite Hnone.
      split; [intros rs Hin; apply elem_of_nil in Hin as []|].
      split; [|reflexivity].
      intros x Hin. exfalso. rewrite Htr, Htr' in Hin.
      repeat (apply elem_of_cons in Hin as [Hin|Hin]; [discriminate Hin|]).
      apply elem_of_nil in Hin as [].
    + exfalso. congruence.
    + exfalso. rewrite Hd, Hs in Hs'. simplify_eq. congruence.
  - rewrite Hd, Hs in Hs'. simplify_eq.
    rewrite Hcache, Hcached in Hhit. simplify_eq.
    split; [exact Hcalls|]. rewrite Hout.
    split; [intros rs Hin; apply list_elem_of_singleton in Hin; exact Hin|].
    split; reflexivity.
  - exfalso. rewrite Hd, Hs in Hs'. simplify_eq. congruence.
Qed.

(** ** Between calls *)




End Facts.
(** ** What [getState()] shares with the manager *)

Lemma Heap_set_other (h : Heap.heap) (l l' : Heap.loc) (key : string) (v : Heap.value) :
  l' <> l -> Heap.set h l key v !! l' = h !! l'.
Proof. intros Hne. unfold Heap.set. apply lookup_alter_ne. congruence. Qed.

(** C8 (as amended): [getState()] returns a new object whose fields have
    the values of the fields of [this.state]; taking the copy changes no
    object that existed before, and an assignment to a field of the copy
    changes the copy alone: every other object, the manager's state object
    among them, and so everything a getter returns, stays as it was. (A field
    that holds an object holds the same object in the copy: what is written
    inside it through the copy is written to the manager's.) *)
Theorem getState_shallow_copy
    (this_state : Heap.loc) (h : Heap.heap) (o : Heap.object) :
  h !! this_state = Some o ->
  forall copy h', Heap.getState this_state h = (copy, h') ->
    h !! copy = None
    /\ copy <> this_state
    /\ h' !! copy = Some o
    /\ (forall key, Heap.get h' copy key = Heap.get h this_state key)
    /\ (forall l, l <> copy -> h' !! l = h !! l)
    /\ (forall key v l, l <> copy ->
          Heap.assign h' copy [] key v !! l = h !! l)
    /\ (forall key v field,
          Heap.get (Heap.assign h' copy [] key v) this_state field
          = Heap.get h this_state field).
Proof.
  intros Hstate copy h' Hcopy.
  unfold Heap.getState, Heap.spread in Hcopy. rewrite Hstate in Hcopy.
  cbn in Hcopy. injection Hcopy as <- <-.
  set (copy := fresh (dom h)).
  assert (Hfresh : h !! copy = None).
  { apply not_elem_of_dom. apply is_fresh. }
  assert (Hne : copy <> this_state) by congruence.
  assert (Hother : forall l, l <> copy -> <[copy := o]> h !! l = h !! l).
  { intros l Hl. apply lookup_insert_ne. congruence. }
  split; [exact Hfresh|]. split; [exact Hne|].
  split; [apply lookup_insert_eq|].
  split.
  { intros key. unfold Heap.get. rewrite lookup_insert_eq, Hstate. reflexivity. }
  split; [exact Hother|].
  split.
  - intros key v l Hl. unfold Heap.assign. cbn.
    rewrite Heap_set_other by exact Hl. apply Hother, Hl.
  - intros key v field. unfold Heap.assign, Heap.get. cbn.
    rewrite Heap_set_other by congruence.
    rewrite Hother by congruence. reflexivity.
Qed.

(** C8, counterexample: the copy's [data] field holds the manager's
    dataset object; emptying its menu list through the copy changes what
    [getData()] of the manager leads to. *)
Lemma getState_shares_dataset :
  let '(copy, h1) := Heap.getState 0 Heap.example_heap in
  let h2 := Heap.assign h1 copy ["data"] "menus" (Heap.Str "") in
  Heap.getData 0 Heap.example_heap = Some (Heap.Ref 1)
  /\ Heap.getData 0 h2 = Some (Heap.Ref 1)
  /\ Heap.get Heap.example_heap 1 "menus" = Some (Heap.Str "soup")
  /\ Heap.get h2 1 "menus" = Some (Heap.Str "").
Proof. vm_compute. repeat split; reflexivity. Qed.

(** The amended C8 on the example heap. *)
Lemma getState_shallow_copy_witness :
  Heap.example_heap !! 0
  = Some {[ "data" := Heap.Ref 1; "currentScenario" := Heap.Str "base";
            "isLoading" := Heap.Bool false ]}
  /\ Heap.get (Heap.assign (Heap.getState 0 Heap.example_heap).2
                 (Heap.getState 0 Heap.example_heap).1 [] "data" Heap.Null)
       0 "data"
     = Heap.get Heap.example_heap 0 "data".
Proof.
  split; [reflexivity|].
  eapply (getState_shallow_copy 0 Heap.example_heap); [reflexivity|].
  vm_compute. reflexivity.
Defined.

(** * Further properties *)

Section MoreFacts.
Context {any E : Type}.
Context `{!JsAny any, !FinanceEngine E any, !FinancialDataValidator any,
          !Runtime any}.

#[local] Abbreviation SM := (@StateManager any E).
#[local] Abbreviation M := (@M any E).
#[local] Abbreviation event := (@event any).
#[local] Abbreviation call := (@call any).

(** ** The mutation methods *)

(** The five methods are the shared body, each with its validator, its
    engine method and its messages. *)
Lemma mutations_share_pipeline (c : call) (m : SM) :
  is_mutation c = true ->
  perform c m = mutation_pipeline (verdict c) (engine_update c) (failure_prefix c) m.
Proof.
  intros Hc. destruct c; try discriminate Hc; cbn [perform verdict engine_update failure_prefix].
  all: unfold updateMenu, updateSalesModel, updateUtilities, updateLabor,
         updateFixedCosts, mutation_pipeline, single_verdict, list_verdict.
  all: unfold try_catch, bind, lift; rewrite updateState_run.
  - destruct (fdv_validateMenuItem updates) as [vr|e]; [|reflexivity].
    destruct (negb (isValid vr)); reflexivity.
  - destruct (fdv_validateSalesModel updates) as [vr|e]; [|reflexivity].
    destruct (negb (isValid vr)); reflexivity.
  - destruct (mapM fdv_validateUtilityItem utilities) as [rs|e]; [|reflexivity].
    destruct (hasErrors rs); reflexivity.
  - destruct (mapM fdv_validateLaborItem labor) as [rs|e]; [|reflexivity].
    destruct (hasErrors rs); reflexivity.
  - destruct (mapM fdv_validateFixedCost fixedCosts) as [rs|e]; [|reflexivity].
    destruct (hasErrors rs); reflexivity.
Qed.

(** A pipeline that stops at its second transition, an ERROR, before the
    engine is called. *)
Lemma mutation_pipeline_stopped
    (checked : outcome (option string))
    (update : E -> Storage -> outcome unit * E * Storage)
    (prefix message : string) (m : SM) :
  checked = Ret (Some message)
  \/ (exists e, checked = Throw e /\ message = prefix +:+ e) ->
  mutation_pipeline checked update prefix m
  = (Ret tt,
     commit (ERROR_UPDATE (Some message)) (commit (LOADING_UPDATE true) m),
     commit_events (LOADING_UPDATE true) m
     ++ commit_events (ERROR_UPDATE (Some message)) (commit (LOADING_UPDATE true) m)).
Proof.
  intros [->|(e & -> & ->)]; unfold mutation_pipeline; unfold_ops; cbv beta;
    rewrite updateState_run; cbn; rewrite updateState_run; cbn;
    rewrite ?app_nil_r; reflexivity.
Qed.

(** What is left of the manager after such a stop. *)
Lemma stopped_frame (message : string) (m : SM) :
  let m' := commit (ERROR_UPDATE (Some message)) (commit (LOADING_UPDATE true) m) in
  error (state m') = Some message
  /\ isLoading (state m') = false
  /\ data (state m') = data (state m)
  /\ scenarios (state m') = scenarios (state m)
  /\ currentScenario (state m') = currentScenario (state m)
  /\ computationResult (state m') = computationResult (state m)
  /\ validationResults (state m') = validationResults (state m)
  /\ financeEngine m' = financeEngine m
  /\ localStorage m' = localStorage m
  /\ validationCache m' = validationCache m
  /\ subscribers m' = subscribers m.
Proof.
  cbv zeta. rewrite !commit_financeEngine, !commit_localStorage by reflexivity.
  norm. repeat split; reflexivity.
Qed.

(** X1: a mutation whose payload the validator rejects ([updateMenu],
    [updateSalesModel], [updateUtilities], [updateLabor], [updateFixedCosts])
    makes two transitions, LOADING(true) and ERROR with the method's label
    followed by the messages of the failing elements joined with ", ". The
    engine is not called: dataset, scenarios, results, engine, storage, cache
    and subscribers are as before, and the whole-dataset validator is not
    invoked. *)
Theorem mutation_rejected (c : call) (m : SM) (message : string) :
  is_mutation c = true ->
  verdict c = Ret (Some message) ->
  exists m' evs,
    perform c m = (Ret tt, m', evs)
    /\ transitions evs = [LOADING_UPDATE true; ERROR_UPDATE (Some message)]
    /\ validator_calls evs = []
    /\ error (state m') = Some message
    /\ isLoading (state m') = false
    /\ data (state m') = data (state m)
    /\ scenarios (state m') = scenarios (state m)
    /\ currentScenario (state m') = currentScenario (state m)
    /\ computationResult (state m') = computationResult (state m)
    /\ validationResults (state m') = validationResults (state m)
    /\ financeEngine m' = financeEngine m
    /\ localStorage m' = localStorage m
    /\ validationCache m' = validationCache m
    /\ subscribers m' = subscribers m.
Proof.
  intros Hc Hverdict.
  rewrite (mutations_share_pipeline c m Hc).
  rewrite (mutation_pipeline_stopped _ _ _ message m) by (left; exact Hverdict).
  eexists _, _. split; [reflexivity|].
  split; [events; reflexivity|]. split; [events; reflexivity|].
  apply stopped_frame.
Qed.



(** X4: an accepted mutation whose engine calls return. Whatever the five
    methods, the transitions are LOADING(true), DATA with the engine's dataset
    and the scenarios the state already had, COMPUTATION, VALIDATION with one
    outcome, LOADING(false); the final state holds the new dataset and results
    with no error, the selected scenario is kept, and the cache gains the
    outcome under the dataset's JSON text unless it was there already. A
    failing save is not an error. *)
Theorem mutation_accepted
    (c : call) (m : SM) (d r : any) (h : string) (v : ValidationResult)
    (e1 e2 e3 e4 : E) (ls1 ls2 ls3 ls4 : Storage) (saved : outcome unit) :
  is_mutation c = true ->
  verdict c = Ret None ->
  engine_update c (financeEngine m) (localStorage m) = (Ret tt, e1, ls1) ->
  fe_getData e1 ls1 = (Ret d, e2, ls2) ->
  fe_save e2 ls2 = (saved, e3, ls3) ->
  fe_compute e3 ls3 = (Ret r, e4, ls4) ->
  JSON_stringify d = Ret h ->
  (validationCache m !! h = Some v
   \/ validationCache m !! h = None /\ fdv_validateAllData d = Ret v) ->
  exists m' evs,
    perform c m = (Ret tt, m', evs)
    /\ transitions evs
       = [LOADING_UPDATE true; DATA_UPDATE d (scenarios (state m));
          COMPUTATION_UPDATE r; VALIDATION_UPDATE [v]; LOADING_UPDATE false]
    /\ data (state m') = d
    /\ computationResult (state m') = r
    /\ validationResults (state m') = [v]
    /\ error (state m') = None
    /\ isLoading (state m') = false
    /\ scenarios (state m') = scenarios (state m)
    /\ currentScenario (state m') = currentScenario (state m)
    /\ financeEngine m' = e4
    /\ localStorage m' = ls4
    /\ validationCache m' !! h = Some v
    /\ (forall k, k <> h -> validationCache m' !! k = validationCache m !! k)
    /\ subscribers m' = subscribers m.
Proof.
  intros Hc Hverdict Hupd Hget Hsave Hcomp Hser Hval.
  rewrite (mutations_share_pipeline c m Hc), Hverdict.
  unfold mutation_pipeline. unfold_ops. cbv beta.
  rewrite updateState_run. cbn.
  rewrite commit_financeEngine, commit_localStorage by reflexivity.
  rewrite Hupd. cbn. rewrite Hget. cbn.
  rewrite updateState_run. cbn.
  set (m1 := set_engine e2 ls2 (set_engine e1 ls1 (commit (LOADING_UPDATE true) m))).
  rewrite commit_state.
  set (scs := scenarios (stamped (LOADING_UPDATE true) m)).
  set (m2 := commit (DATA_UPDATE d scs) m1).
  assert (Hm2 : financeEngine m2 = e3 /\ localStorage m2 = ls3).
  { unfold m2. destruct (commit_data_engine d scs m1) as [-> ->].
    unfold m1. cbn. rewrite Hsave. split; reflexivity. }
  destruct Hm2 as [Heng2 Hls2].
  rewrite (computeAndValidate_computed m2 r e4 ls4) by (rewrite Heng2, Hls2; exact Hcomp).
  cbv zeta.
  set (m3 := commit (COMPUTATION_UPDATE r) (set_engine e4 ls4 m2)).
  assert (Hd3 : data (state m3) = d) by (unfold m3, m2; norm; reflexivity).
  assert (Hc3 : validationCache m3 = validationCache m)
    by (unfold m3, m2, m1; norm; reflexivity).
  assert (He3 : financeEngine m3 = e4 /\ localStorage m3 = ls4).
  { unfold m3. rewrite commit_financeEngine, commit_localStorage by reflexivity.
    split; reflexivity. }
  destruct He3 as [He3 Hl3].
  destruct Hval as [Hhit|[Hmiss Hv]].
  - rewrite (validateAllData_hit m3 h v) by (rewrite ?Hd3, ?Hc3; assumption).
    eexists _, _. split; [reflexivity|].
    rewrite !commit_financeEngine, !commit_localStorage by reflexivity.
    events. split; [unfold stamped; cbn; reflexivity|].
    rewrite He3, Hl3. norm. fold m1 m2 m3. rewrite Hc3.
    unfold m3, m2, m1. norm. repeat split; try reflexivity; done.
  - rewrite (validateAllData_miss m3 h v) by (rewrite ?Hd3, ?Hc3; assumption).
    eexists _, _. split; [reflexivity|].
    rewrite !commit_financeEngine, !commit_localStorage by reflexivity.
    events. split; [unfold stamped; cbn; reflexivity|].
    cbn [set_validationCache financeEngine localStorage].
    rewrite He3, Hl3. norm. fold m1 m2 m3. rewrite Hc3.
    unfold m3, m2, m1. norm. rewrite Hd3 || idtac.
    repeat split; try reflexivity.
    + apply lookup_insert_eq.
    + intros k Hk. apply lookup_insert_ne. congruence.
Qed.

(** ** Runs as sequences of steps *)

Lemma steps_ret {A} (a : A) : respects steps (ret a : M A).
Proof. intros m o m' evs Hrun. unfold ret in Hrun. simplify_eq. constructor. Qed.

Lemma steps_throw {A} (e : string) : respects steps (throw e : M A).
Proof. intros m o m' evs Hrun. unfold throw in Hrun. simplify_eq. constructor. Qed.

Lemma steps_gets {A} (f : SM -> A) : respects steps (gets f).
Proof. intros m o m' evs Hrun. unfold gets in Hrun. simplify_eq. constructor. Qed.

Lemma steps_lift {A} (o : outcome A) : respects steps (lift o : M A).
Proof. intros m o' m' evs Hrun. unfold lift in Hrun. simplify_eq. constructor. Qed.

Lemma steps_bind {A B} (c : M A) (k : A -> M B) :
  respects steps c -> (forall a, respects steps (k a)) -> respects steps (bind c k).
Proof.
  intros Hc Hk m o m' evs Hrun. unfold bind in Hrun.
  destruct (c m) as [[[a|e] m1] evs1] eqn:Hc1.
  - destruct (k a m1) as [[o2 m2] evs2] eqn:Hk1. simplify_eq.
    eapply steps_seq; [eapply Hc, Hc1 | eapply Hk, Hk1].
  - simplify_eq. eapply Hc, Hc1.
Qed.

Lemma steps_try_catch {A} (body : M A) (handler : string -> M A) :
  respects steps body -> (forall e, respects steps (handler e)) ->
  respects steps (try_catch body handler).
Proof.
  intros Hc Hk m o m' evs Hrun. unfold try_catch in Hrun.
  destruct (body m) as [[[a|e] m1] evs1] eqn:Hc1.
  - simplify_eq. eapply Hc, Hc1.
  - destruct (handler e m1) as [[o2 m2] evs2] eqn:Hk1. simplify_eq.
    eapply steps_seq; [eapply Hc, Hc1 | eapply Hk, Hk1].
Qed.

Lemma steps_call_engine {A} (f : E -> Storage -> outcome A * E * Storage) :
  respects steps (call_engine f).
Proof.
  intros m o m' evs Hrun. unfold call_engine in Hrun.
  destruct (f _ _) as [[r e] ls]. simplify_eq. constructor.
Qed.

Lemma steps_new_engine : respects steps new_engine.
Proof.
  intros m o m' evs Hrun. unfold new_engine in Hrun.
  destruct (fe_new _) as [[e|msg] ls]; simplify_eq; constructor.
Qed.

Lemma steps_console_error (label message : string) :
  respects steps (console_error label message).
Proof.
  intros m o m' evs Hrun. unfold console_error, emit in Hrun. simplify_eq. constructor.
Qed.

Lemma steps_set_localStorage (f : Storage -> Storage) :
  respects steps (modify (set_localStorage f)).
Proof. intros m o m' evs Hrun. unfold modify in Hrun. simplify_eq. constructor. Qed.

Lemma steps_clear_cache :
  respects steps (modify (set_validationCache (fun _ => ∅))).
Proof. intros m o m' evs Hrun. unfold modify in Hrun. simplify_eq. constructor. Qed.

Lemma steps_updateState (update : StateUpdate any) :
  (forall m : SM, made_update m update) -> respects steps (updateState update).
Proof.
  intros Hu m o m' evs Hrun. rewrite updateState_run in Hrun. simplify_eq.
  constructor. apply Hu.
Qed.

Lemma steps_validateAllData : respects steps validateAllData.
Proof.
  intros m o m' evs Hrun.
  destruct (JSON_stringify (data (state m))) as [h|e] eqn:Hs.
  - destruct (validationCache m !! h) as [v|] eqn:Hl.
    + rewrite (validateAllData_hit _ _ _ Hs Hl) in Hrun. simplify_eq.
      constructor. exists h, v. auto.
    + destruct (fdv_validateAllData (data (state m))) as [v|e] eqn:Hv.
      * rewrite (validateAllData_miss _ _ _ Hs Hl Hv) in Hrun. simplify_eq.
        apply (steps_seq _ (set_validationCache (insert h v) m) _ [_]).
        -- apply steps_validated; assumption.
        -- apply steps_transition. exists h, v. cbn. rewrite lookup_insert_eq. auto.
      * rewrite (validateAllData_throws _ _ _ Hs Hl Hv) in Hrun. simplify_eq.
        eapply (steps_seq _ _ _ [_] [_]).
        -- eapply steps_validator_threw, Hv.
        -- apply steps_console.
  - rewrite (validateAllData_unserializable _ _ Hs) in Hrun. simplify_eq.
    constructor.
Qed.

Ltac steps_rules :=
  repeat match goal with
    | |- forall _, _ => intro
    | |- respects _ validateAllData => apply steps_validateAllData
    | |- respects _ (bind _ _) => apply steps_bind
    | |- respects _ (try_catch _ _) => apply steps_try_catch
    | |- respects _ (ret _) => apply steps_ret
    | |- respects _ (throw _) => apply steps_throw
    | |- respects _ (gets _) => apply steps_gets
    | |- respects _ (lift _) => apply steps_lift
    | |- respects _ (call_engine _) => apply steps_call_engine
    | |- respects _ new_engine => apply steps_new_engine
    | |- respects _ (console_error _ _) => apply steps_console_error
    | |- respects _ (modify (set_localStorage _)) => apply steps_set_localStorage
    | |- respects _ (modify (set_validationCache _)) => apply steps_clear_cache
    | |- respects _ (updateState _) => apply steps_updateState; intro; exact I
    end.

Lemma steps_computeAndValidate : respects steps computeAndValidate.
Proof. unfold computeAndValidate. steps_rules. Qed.

Lemma steps_mutation_pipeline
    (checked : outcome (option string))
    (update : E -> Storage -> outcome unit * E * Storage) (prefix : string) :
  respects steps (mutation_pipeline checked update prefix).
Proof.
  unfold mutation_pipeline. steps_rules.
  match goal with |- respects _ (match ?x with _ => _ end) => destruct x end.
  all: steps_rules; apply steps_computeAndValidate.
Qed.

Lemma steps_importData (jsonString : string) :
  respects steps (importData jsonString).
Proof.
  unfold importData. steps_rules.
  match goal with |- respects _ (if ?x then _ else _) => destruct x end.
  all: steps_rules; apply steps_computeAndValidate.
Qed.

Lemma steps_reset : respects steps reset.
Proof. unfold reset. steps_rules; apply steps_computeAndValidate. Qed.

Lemma steps_initializeState : respects steps initializeState.
Proof. unfold initializeState. steps_rules; apply steps_computeAndValidate. Qed.

Lemma steps_setCurrentScenario (scenarioId : string) :
  respects steps (setCurrentScenario scenarioId).
Proof.
  intros m o m' evs Hrun. unfold setCurrentScenario, bind, gets in Hrun.
  destruct (has_truthy _ _) eqn:Hguard; rewrite updateState_run in Hrun;
    simplify_eq; rewrite app_nil_l; constructor; [exact Hguard | exact I].
Qed.

(** Every call that does not edit the subscriber list is a sequence of
    steps. *)
Lemma perform_steps (c : call) (m m' : SM) (o : outcome unit) (evs : list event) :
  edits_subscribers c = false ->
  perform c m = (o, m', evs) ->
  steps m m' evs.
Proof.
  intros Hc Hrun.
  destruct (is_mutation c) eqn:Hmut.
  - rewrite mutations_share_pipeline in Hrun by exact Hmut.
    eapply steps_mutation_pipeline, Hrun.
  - revert m o m' evs Hrun. change (respects steps (perform c)).
    destruct c; try discriminate Hc; try discriminate Hmut; cbn [perform].
    all: unfold forget, exportData, getState, getData, getComputationResult,
           getValidationResults, getError, getIsLoading, getCurrentScenario,
           getScenarios, clearError.
    all: try solve [steps_rules].
    + steps_rules. apply steps_importData.
    + apply steps_setCurrentScenario.
    + apply steps_reset.
Qed.

(** ** The state is the replay of the transitions *)





(** ** Invariants of the published states *)

Lemma steps_state_invariant (P : AppState any -> Prop) :
  (forall (m : SM) update, made_update m update -> P (state m) -> P (stamped update m)) ->
  forall (m m' : SM) evs,
    steps m m' evs -> P (state m) ->
    P (state m') /\ forall cb s, (cb, s) ∈ notifications evs -> P s.
Proof.
  intros Hkept m m' evs Hsteps.
  induction Hsteps as [m|m1 m2 m3 evs1 evs2 _ IH1 _ IH2
                      |m u Hu|m e ls|m f|m l msg|m h v _ _ _|m e _|m]; intros HP.
  all: try (split; [exact HP | intros cb s Hin; cbn in Hin; apply elem_of_nil in Hin as []]).
  - destruct (IH1 HP) as [HP2 Hn1]. destruct (IH2 HP2) as [HP3 Hn2].
    split; [exact HP3|]. intros cb s Hin.
    rewrite notifications_app in Hin. apply elem_of_app in Hin as [Hin|Hin]; eauto.
  - rewrite commit_state, commit_events_notifications.
    split; [apply Hkept; assumption|].
    intros cb s Hin. apply list_elem_of_fmap in Hin as (cb' & Heq & _).
    simplify_eq. apply Hkept; assumption.
Qed.

Lemma edits_subscribers_quiet (c : call) (m : SM) :
  edits_subscribers c = true ->
  state (after c m) = state m
  /\ validationCache (after c m) = validationCache m
  /\ ticks (after c m) = ticks m
  /\ log c m = [].
Proof.
  intros Hc. unfold after, log.
  destruct c; try discriminate Hc; cbn [perform].
  - unfold subscribe, modify. cbn. done.
  - rewrite unsubscribe_run. cbn. destruct (indexOf _ _); done.
Qed.

Lemma perform_state_invariant (P : AppState any -> Prop) (c : call) (m : SM) :
  (forall (m : SM) update, made_update m update -> P (state m) -> P (stamped update m)) ->
  P (state m) ->
  P (state (after c m)) /\ forall cb s, (cb, s) ∈ notifications (log c m) -> P s.
Proof.
  intros Hkept HP.
  destruct (edits_subscribers c) eqn:Hc.
  - destruct (edits_subscribers_quiet c m Hc) as (-> & _ & _ & ->).
    split; [exact HP|]. intros cb s Hin. apply elem_of_nil in Hin as [].
  - unfold after, log. destruct (perform c m) as [[o m'] evs] eqn:Hrun. cbn [fst snd].
    apply (steps_state_invariant P Hkept _ _ _ (perform_steps _ _ _ _ _ Hc Hrun) HP).
Qed.

Lemma reachable_state_invariant (P : AppState any -> Prop) (m : SM) :
  (forall now, P (getInitialState now)) ->
  (forall (m : SM) update, made_update m update -> P (state m) -> P (stamped update m)) ->
  reachable m -> P (state m).
Proof.
  intros Hinit Hkept Hreach.
  induction Hreach as [ls t m evs Hnew|c m _ IH].
  - unfold constructor in Hnew.
    destruct (fe_new ls) as [[eng|e] ls']; [|discriminate Hnew].
    destruct (initializeState _) as [[[[]|e] m'] evs'] eqn:Hrun; [|discriminate Hnew].
    simplify_eq.
    pose proof (steps_initializeState _ _ _ _ Hrun) as Hsteps.
    apply (steps_state_invariant P Hkept _ _ _ Hsteps). apply Hinit.
  - apply (perform_state_invariant P c m Hkept IH).
Qed.


(** X7: a subscriber is never handed a state that is loading and carries
    an error: LOADING(true) clears the error and ERROR clears the flag, and
    no other transition touches either. *)
Theorem loading_state_has_no_error (c : call) (m : SM) (cb : Callback) (s : AppState any) :
  reachable m ->
  (cb, s) ∈ notifications (log c m) ->
  isLoading s = true -> error s = None.
Proof.
  intros Hreach Hin.
  set (P := fun s : AppState any => isLoading s = true -> error s = None).
  assert (Hkept : forall (m : SM) update,
             made_update m update -> P (state m) -> P (stamped update m)).
  { intros m0 u _ HP. unfold P, stamped in *. destruct u as [| | | | |[]]; cbn; auto;
      discriminate. }
  assert (HP : P (state m)).
  { apply (reachable_state_invariant P); [discriminate | exact Hkept | exact Hreach]. }
  destruct (perform_state_invariant P c m Hkept HP) as [_ Hall].
  exact (Hall cb s Hin).
Qed.


(** ** The cache holds what the validator said *)

Lemma steps_cache_sound (m m' : SM) (evs : list event) :
  steps m m' evs -> cache_sound m -> cache_sound m'.
Proof.
  induction 1 as [m|m1 m2 m3 evs1 evs2 _ IH1 _ IH2
                 |m u Hu|m e ls|m f|m l msg|m h v Hs Hmiss Hv|m e _|m]; intros Hsound; auto.
  - intros h v. rewrite commit_validationCache. apply Hsound.
  - intros h' v'. cbn. intros Hl.
    destruct (decide (h' = h)) as [->|Hne].
    + rewrite lookup_insert_eq in Hl. simplify_eq. eauto.
    + rewrite lookup_insert_ne in Hl by congruence. apply Hsound, Hl.
  - intros h v. cbn. rewrite lookup_empty. discriminate.
Qed.


(** X9: every entry of the validation cache is an outcome the whole-dataset
    validator returned for a dataset whose JSON text is the entry's key; this
    holds of every manager the constructor and the public methods can
    produce. *)
Theorem cache_holds_validator_outcomes (m : SM) (h : string) (v : ValidationResult) :
  reachable m ->
  validationCache m !! h = Some v ->
  exists d, JSON_stringify d = Ret h /\ fdv_validateAllData d = Ret v.
Proof.
  intros Hreach. revert h v. change (cache_sound m).
  induction Hreach as [ls t m evs Hnew|c m _ IH].
  - unfold constructor in Hnew.
    destruct (fe_new ls) as [[eng|e] ls']; [|discriminate Hnew].
    destruct (initializeState _) as [[[[]|e] m'] evs'] eqn:Hrun; [|discriminate Hnew].
    simplify_eq. eapply steps_cache_sound; [eapply steps_initializeState, Hrun|].
    intros h v. cbn. rewrite lookup_empty. discriminate.
  - destruct (edits_subscribers c) eqn:Hc.
    + destruct (edits_subscribers_quiet c m Hc) as (_ & Hcache & _).
      intros h v. rewrite Hcache. apply IH.
    + unfold after. destruct (perform c m) as [[o m'] evs] eqn:Hrun. cbn [fst snd].
      eapply steps_cache_sound; [eapply perform_steps; eassumption | exact IH].
Qed.




(** ** The shape of a pipeline *)









(** ** One transition, as its observers see it *)

Lemma console_errors_app (evs1 evs2 : list event) :
  console_errors (evs1 ++ evs2) = console_errors evs1 ++ console_errors evs2.
Proof. apply omap_app. Qed.



(** ** Selecting a scenario *)

(** X13: [setCurrentScenario] makes one transition and touches nothing but
    the state: no engine call, no validation, no recomputation. When
    [scenarios[id]] is truthy the current scenario becomes [id] and the error
    field and the loading flag stay as they were (an earlier error is not
    cleared); otherwise the current scenario stays and the error is
    "Scenario {id} not found", also for a key whose own value is falsy. *)
Theorem setCurrentScenario_effect (scenarioId : string) (m : SM) :
  exists m' evs,
    setCurrentScenario scenarioId m = (Ret tt, m', evs)
    /\ data (state m') = data (state m)
    /\ scenarios (state m') = scenarios (state m)
    /\ computationResult (state m') = computationResult (state m)
    /\ validationResults (state m') = validationResults (state m)
    /\ financeEngine m' = financeEngine m
    /\ localStorage m' = localStorage m
    /\ validationCache m' = validationCache m
    /\ subscribers m' = subscribers m
    /\ validator_calls evs = []
    /\ (if has_truthy (scenarios (state m)) scenarioId
        then transitions evs = [SCENARIO_UPDATE scenarioId]
             /\ currentScenario (state m') = scenarioId
             /\ error (state m') = error (state m)
             /\ isLoading (state m') = isLoading (state m)
        else transitions evs
             = [ERROR_UPDATE (Some ("Scenario " +:+ scenarioId +:+ " not found"))]
             /\ currentScenario (state m') = currentScenario (state m)
             /\ error (state m') = Some ("Scenario " +:+ scenarioId +:+ " not found")
             /\ isLoading (state m') = false)
    /\ (forall v, scenarios (state m) !! scenarioId = Some v ->
          has_truthy (scenarios (state m)) scenarioId = truthy v).
Proof.
  rewrite setCurrentScenario_run, updateState_run.
  eexists _, _. split; [reflexivity|].
  rewrite commit_events_transitions, commit_events_validator_calls.
  destruct (has_truthy (scenarios (state m)) scenarioId) eqn:Hguard.
  all: rewrite commit_financeEngine, commit_localStorage by reflexivity.
  all: norm; repeat split; try reflexivity.
  all: intros v Hv; unfold has_truthy in Hguard; rewrite Hv in Hguard; congruence.
Qed.

(** ** Reset *)



(** ** Construction *)



(** X18: a construction in which the engine's calls return and the dataset
    validates makes four transitions, DATA, COMPUTATION, VALIDATION,
    LOADING(false), with no LOADING(true) before them; the validator is
    invoked once, on the engine's dataset, and its outcome is the cache's one
    entry. *)
Theorem constructor_loads
    (ls ls0 ls1 ls2 ls3 ls4 ls5 : Storage) (t : nat) (e0 e1 e2 e3 e4 e5 : E)
    (d r : any) (scs : gmap string any) (saved : outcome unit)
    (h : string) (v : ValidationResult) :
  fe_new ls = (Ret e0, ls0) ->
  fe_init e0 ls0 = (Ret tt, e1, ls1) ->
  fe_getData e1 ls1 = (Ret d, e2, ls2) ->
  fe_getScenarios e2 ls2 = (Ret scs, e3, ls3) ->
  fe_save e3 ls3 = (saved, e4, ls4) ->
  fe_compute e4 ls4 = (Ret r, e5, ls5) ->
  JSON_stringify d = Ret h ->
  fdv_validateAllData d = Ret v ->
  exists (m : SM) evs,
    constructor ls t = Ret (m, evs)
    /\ transitions evs
       = [DATA_UPDATE d scs; COMPUTATION_UPDATE r; VALIDATION_UPDATE [v];
          LOADING_UPDATE false]
    /\ validator_calls evs = [d]
    /\ state m
       = {| data := d; scenarios := scs; currentScenario := "base";
            computationResult := r; validationResults := [v];
            isLoading := false; error := None; lastUpdated := clock (4 + t) |}
    /\ validationCache m = {[ h := v ]}
    /\ financeEngine m = e5
    /\ localStorage m = ls5.
Proof.
  intros Hnew Hinit Hget Hscs Hsave Hcomp Hser Hval.
  unfold constructor. rewrite Hnew.
  set (m0 := {| state := getInitialState (clock t); financeEngine := e0;
                subscribers := []; validationCache := ∅;
                localStorage := ls0; ticks := S t |}).
  unfold initializeState. unfold_ops. cbv beta.
  cbn [financeEngine localStorage m0]. rewrite Hinit. cbn. rewrite Hget. cbn.
  rewrite Hscs. cbn. rewrite updateState_run. cbn.
  set (m1 := set_engine e3 ls3 _).
  set (m2 := commit (DATA_UPDATE d scs) m1).
  assert (Hm2 : financeEngine m2 = e4 /\ localStorage m2 = ls4).
  { unfold m2. destruct (commit_data_engine d scs m1) as [-> ->].
    unfold m1. cbn. rewrite Hsave. split; reflexivity. }
  destruct Hm2 as [Heng2 Hls2].
  rewrite (computeAndValidate_computed m2 r e5 ls5) by (rewrite Heng2, Hls2; exact Hcomp).
  cbv zeta.
  set (m3 := commit (COMPUTATION_UPDATE r) (set_engine e5 ls5 m2)).
  assert (Hd3 : data (state m3) = d) by (unfold m3, m2; norm; reflexivity).
  assert (Hc3 : validationCache m3 = ∅) by (unfold m3, m2, m1; norm; reflexivity).
  rewrite (validateAllData_miss m3 h v)
    by (rewrite ?Hd3, ?Hc3; first [assumption | apply lookup_empty]).
  eexists _, _. split; [reflexivity|].
  rewrite !commit_financeEngine, !commit_localStorage by reflexivity.
  events. rewrite Hd3.
  split; [reflexivity|]. split; [reflexivity|].
  split; [|split; [|split]].
  - unfold m3, m2, m1, commit, stamped. cbn.
    destruct (fe_save e3 ls3) as [[? ?] ?]. cbn. reflexivity.
  - rewrite !commit_validationCache. unfold set_validationCache.
    cbn [validationCache]. rewrite Hc3. apply insert_empty.
  - cbn. unfold m3. rewrite commit_financeEngine by reflexivity. reflexivity.
  - cbn. unfold m3. rewrite commit_localStorage by reflexivity. reflexivity.
Qed.

(** ** Import, where it stops short *)

(** X19: when the engine refuses the text, [importData] returns the
    engine's result as it is and records its message, or "Import failed" when
    the message is absent or empty; the dataset, the scenarios and the cache
    are as before. *)
Theorem importData_refused
    (jsonString : string) (m : SM) (result : ImportResult) (e1 : E) (ls1 : Storage) :
  fe_importJSON jsonString (financeEngine m) (localStorage m) = (Ret result, e1, ls1) ->
  success result = false ->
  exists m' evs,
    importData jsonString m = (Ret result, m', evs)
    /\ transitions evs
       = [LOADING_UPDATE true;
          ERROR_UPDATE (Some (error_or_default (import_error result)))]
    /\ error (state m') = Some (error_or_default (import_error result))
    /\ (import_error result = None \/ import_error result = Some ""
        -> error (state m') = Some "Import failed")
    /\ isLoading (state m') = false
    /\ data (state m') = data (state m)
    /\ scenarios (state m') = scenarios (state m)
    /\ validationCache m' = validationCache m
    /\ validator_calls evs = []
    /\ financeEngine m' = e1
    /\ localStorage m' = ls1.
Proof.
  intros Himp Hfail.
  unfold importData. unfold_ops. cbv beta.
  rewrite updateState_run. cbn.
  rewrite commit_financeEngine, commit_localStorage by reflexivity.
  rewrite Himp. cbn. rewrite Hfail. rewrite updateState_run. cbn.
  eexists _, _. split; [reflexivity|].
  rewrite !commit_financeEngine, !commit_localStorage by reflexivity.
  events. norm. repeat split; try reflexivity.
  intros [->| ->]; reflexivity.
Qed.


(** ** The cache only grows *)

Lemma computeAndValidate_cache (m m' : SM) (o : outcome unit) (evs : list event) :
  computeAndValidate m = (o, m', evs) ->
  validationCache m' = validationCache m
  \/ exists h v,
       validationCache m !! h = None
       /\ validationCache m' = <[h := v]> (validationCache m).
Proof.
  intros Hrun. apply computeAndValidate_cases in Hrun
    as [(_ & Hc & _)|[(h & v & _ & _ & _ & _ & Hc)|(h & v & _ & Hmiss & _ & _ & _ & Hc)]];
    eauto.
Qed.

(** X21: nothing is ever evicted from the validation cache: a call other
    than [importData] and [reset] leaves the cache as it is or adds one entry
    under a key that was not there. *)
Theorem cache_only_grows (c : call) (m : SM) :
  replaces_scenarios c = false ->
  validationCache (after c m) = validationCache m
  \/ exists h v,
       validationCache m !! h = None
       /\ validationCache (after c m) = <[h := v]> (validationCache m).
Proof.
  intros Hc. unfold after.
  destruct (perform c m) as [[o m'] evs] eqn:Hrun. cbn [fst snd].
  destruct (is_mutation c) eqn:Hmut.
  - rewrite mutations_share_pipeline in Hrun by exact Hmut.
    unfold mutation_pipeline in Hrun. exec.
    all: try (left; norm; reflexivity).
    all: match goal with
         | H : computeAndValidate _ = _ |- _ =>
             apply computeAndValidate_cache in H; norm; exact H
         end.
  - destruct c; try discriminate Hc; try discriminate Hmut; cbn [perform] in Hrun.
    all: try (unfold exportData, getState, getData, getComputationResult,
                getValidationResults, getError, getIsLoading,
                getCurrentScenario, getScenarios, subscribe, clearError in Hrun;
              exec; left; norm; reflexivity).
    all: try (unfold setCurrentScenario in Hrun; exec; left; norm; reflexivity).
    rewrite unsubscribe_run in Hrun. simplify_eq.
    left. destruct (indexOf _ _); reflexivity.
Qed.

(** ** Subscribers end in step with the manager *)




(** ** Accepted mutations that stop short *)


(** X25: an accepted mutation whose whole-dataset validation throws. The
    failure is logged and is no error: the transitions are LOADING(true),
    DATA, COMPUTATION, LOADING(false), the error field ends null, and the
    state is left with the new dataset and result next to the validation
    results of the old dataset; nothing is cached. *)
Theorem mutation_validation_skipped
    (c : call) (m : SM) (d r : any) (h message : string)
    (e1 e2 e3 e4 : E) (ls1 ls2 ls3 ls4 : Storage) (saved : outcome unit) :
  is_mutation c = true ->
  verdict c = Ret None ->
  engine_update c (financeEngine m) (localStorage m) = (Ret tt, e1, ls1) ->
  fe_getData e1 ls1 = (Ret d, e2, ls2) ->
  fe_save e2 ls2 = (saved, e3, ls3) ->
  fe_compute e3 ls3 = (Ret r, e4, ls4) ->
  JSON_stringify d = Ret h ->
  validationCache m !! h = None ->
  fdv_validateAllData d = Throw message ->
  exists m' evs,
    perform c m = (Ret tt, m', evs)
    /\ transitions evs
       = [LOADING_UPDATE true; DATA_UPDATE d (scenarios (state m));
          COMPUTATION_UPDATE r; LOADING_UPDATE false]
    /\ validator_calls evs = [d]
    /\ ("Validation failed:", message) ∈ console_errors evs
    /\ data (state m') = d
    /\ computationResult (state m') = r
    /\ validationResults (state m') = validationResults (state m)
    /\ error (state m') = None
    /\ isLoading (state m') = false
    /\ validationCache m' = validationCache m.
Proof.
  intros Hc Hverdict Hupd Hget Hsave Hcomp Hser Hmiss Hval.
  rewrite (mutations_share_pipeline c m Hc), Hverdict.
  unfold mutation_pipeline. unfold_ops. cbv beta.
  rewrite updateState_run. cbn.
  rewrite commit_financeEngine, commit_localStorage by reflexivity.
  rewrite Hupd. cbn. rewrite Hget. cbn.
  rewrite updateState_run. cbn.
  set (m1 := set_engine e2 ls2 (set_engine e1 ls1 (commit (LOADING_UPDATE true) m))).
  rewrite commit_state.
  set (scs := scenarios (stamped (LOADING_UPDATE true) m)).
  set (m2 := commit (DATA_UPDATE d scs) m1).
  assert (Hm2 : financeEngine m2 = e3 /\ localStorage m2 = ls3).
  { unfold m2. destruct (commit_data_engine d scs m1) as [-> ->].
    unfold m1. cbn. rewrite Hsave. split; reflexivity. }
  destruct Hm2 as [Heng2 Hls2].
  rewrite (computeAndValidate_computed m2 r e4 ls4) by (rewrite Heng2, Hls2; exact Hcomp).
  cbv zeta.
  set (m3 := commit (COMPUTATION_UPDATE r) (set_engine e4 ls4 m2)).
  assert (Hd3 : data (state m3) = d) by (unfold m3, m2; norm; reflexivity).
  assert (Hc3 : validationCache m3 = validationCache m)
    by (unfold m3, m2, m1; norm; reflexivity).
  rewrite (validateAllData_throws m3 h message) by (rewrite ?Hd3, ?Hc3; assumption).
  eexists _, _. split; [reflexivity|].
  split; [events; unfold stamped; cbn; reflexivity|].
  split; [events; rewrite Hd3; reflexivity|].
  split.
  { assert (Hin : ("Validation failed:", message)
                  ∈ console_errors [ValidatorCall (data (state m3));
                                    ConsoleError "Validation failed:" message])
      by (unfold console_errors; cbn; left).
    rewrite !console_errors_app, !elem_of_app. tauto. }
  rewrite commit_validationCache, Hc3.
  unfold m3, m2, m1. norm. repeat split; reflexivity.
Qed.

End MoreFacts.

(** ** The validation hook *)

(** X22: in [useValidationResults], [hasWarnings] is true exactly when
    [allWarnings] is not empty. *)
Theorem hasWarnings_allWarnings (validationResults : list ValidationResult) :
  Hooks.hasWarnings validationResults = true
  <-> Hooks.allWarnings validationResults <> [].
Proof.
  unfold Hooks.hasWarnings, Hooks.allWarnings.
  induction validationResults as [|result rest IH]; cbn [existsb flat_map].
  - split; [discriminate | congruence].
  - rewrite orb_true_iff, IH, bool_decide_eq_true.
    destruct (warnings result) as [|w ws]; cbn.
    + split; [intros [Hlt|Hrest]; [lia | exact Hrest] | auto].
    + split; [discriminate | intros _; left; lia].
Qed.

(** ** Runs on the small engine *)

Import Demo.
#[local] Open Scope Z_scope.



(** C2 on the healthy manager: a menu item without name and price. *)
Lemma updateMenu_validation_gate_witness :
  (fdv_validateMenuItem Null
   = Ret {| isValid := false;
            errors := ["Name is required"; "Price must be positive"];
            warnings := [] |})
  /\ exists m' evs,
       updateMenu "menu-1" Null observed = (Ret tt, m', evs)
       /\ data (state m') = data (state observed)
       /\ financeEngine m' = financeEngine observed
       /\ localStorage m' = localStorage observed
       /\ error (state m')
          = Some "Menu validation failed: Name is required, Price must be positive"
       /\ transitions evs
          = [LOADING_UPDATE true;
             ERROR_UPDATE
               (Some "Menu validation failed: Name is required, Price must be positive")]
       /\ (forall update, update ∈ transitions evs ->
             match update with
             | COMPUTATION_UPDATE _ | VALIDATION_UPDATE _ | DATA_UPDATE _ _ => False
             | _ => True
             end)
       /\ validator_calls evs = [].
Proof.
  split; [reflexivity|].
  apply (updateMenu_validation_gate "menu-1" Null observed
           {| isValid := false;
              errors := ["Name is required"; "Price must be positive"];
              warnings := [] |}); reflexivity.
Defined.





(** C5, counterexample: on the dataset without menus the validator throws,
    nothing is cached, and two runs in a row on the same dataset, with no
    cache clear in between, invoke the validator twice. *)
Lemma validator_invoked_twice :
  let '(_, m1, evs1) := computeAndValidate observed_no_menus in
  let '(_, _, evs2) := computeAndValidate m1 in
  JSON_stringify (data (state observed_no_menus)) = JSON_stringify (data (state m1))
  /\ validationCache m1 = validationCache observed_no_menus
  /\ validator_calls evs1 = [Dataset false [100]]
  /\ validator_calls evs2 = [Dataset false [100]]
  /\ length (validator_calls (evs1 ++ evs2)) = 2%nat.
Proof. vm_compute. repeat split; reflexivity. Qed.

(** The amended C5 on the healthy manager: two runs in a row. *)
Lemma validation_cache_reuse_witness :
  (forall e, fdv_validateAllData (data (state observed)) <> Throw e)
  /\ (length (validator_calls
                ((computeAndValidate observed).2
                 ++ (computeAndValidate (computeAndValidate observed).1.2).2)) <= 1)%nat
  /\ (validation_outcomes (computeAndValidate observed).2 <> [] ->
      validator_calls (computeAndValidate (computeAndValidate observed).1.2).2 = []
      /\ forall x e ls,
           fe_compute (financeEngine (computeAndValidate observed).1.2)
             (localStorage (computeAndValidate observed).1.2) = (Ret x, e, ls) ->
           validation_outcomes (computeAndValidate (computeAndValidate observed).1.2).2
           = validation_outcomes (computeAndValidate observed).2).
Proof.
  assert (Hreturns : forall e, fdv_validateAllData (data (state observed)) <> Throw e).
  { intros e. vm_compute. discriminate. }
  split; [exact Hreturns|].
  destruct (validation_cache_reuse
              observed (computeAndValidate observed).1.2
              (computeAndValidate observed).1.2
              (computeAndValidate (computeAndValidate observed).1.2).1.2
              (computeAndValidate observed).1.1
              (computeAndValidate (computeAndValidate observed).1.2).1.1
              (computeAndValidate observed).2
              (computeAndValidate (computeAndValidate observed).1.2).2
              "{menus:[],fixedCosts:[100]}") as (Hcount & _ & Hnone).
  - vm_compute. reflexivity.
  - vm_compute. reflexivity.
  - reflexivity.
  - vm_compute. reflexivity.
  - vm_compute. reflexivity.
  - exact Hreturns.
  - split; [exact Hcount | exact Hnone].
Defined.

(** C6, counterexample: after a successful import, the first mutation
    invokes the validator and the second one, on the same dataset, does not:
    it finds the outcome that was cached after the import. The JSON text of
    that dataset was a key of the cache before the import as well. *)
Lemma second_run_after_import_reuses_cache :
  let '(r, m1, _) := importData "defaults" observed in
  let '(_, m2, evs2) := updateSalesModel (Num 1) m1 in
  let '(_, _, evs3) := updateSalesModel (Num 1) m2 in
  r = Ret {| success := true; import_error := None |}
  /\ is_Some (validationCache observed !! "{menus:[],fixedCosts:[100]}")
  /\ JSON_stringify (data (state m2)) = Ret "{menus:[],fixedCosts:[100]}"
  /\ validationCache m1 = ∅
  /\ validator_calls evs2 = [Dataset true [100]]
  /\ validator_calls evs3 = []
  /\ validation_outcomes evs3
     = [[{| isValid := true; errors := []; warnings := [] |}]].
Proof.
  vm_compute. repeat split; try reflexivity. eexists; reflexivity.
Qed.

(** The amended C6 on the healthy manager: the run inside the first
    mutation after the import. *)
Lemma import_clears_cache_witness :
  success ok = true
  /\ validationCache (importData "defaults" observed).1.2 = ∅
  /\ validator_calls
       (computeAndValidate (importData "defaults" observed).1.2).2
     = [Dataset true [100]].
Proof.
  split; [reflexivity|].
  destruct (import_clears_cache "defaults" observed
              (importData "defaults" observed).1.2 ok
              (importData "defaults" observed).2) as [Hempty Hnext].
  - vm_compute. reflexivity.
  - reflexivity.
  - split; [exact Hempty|].
    destruct (Hnext (importData "defaults" observed).1.2
                (computeAndValidate (importData "defaults" observed).1.2).1.2
                (computeAndValidate (importData "defaults" observed).1.2).1.1
                (computeAndValidate (importData "defaults" observed).1.2).2)
      as [_ Hinvoked].
    + reflexivity.
    + vm_compute. reflexivity.
    + eapply Hinvoked; vm_compute; reflexivity.
Defined.

(** C7, counterexample: a subscriber that calls [clearError()] from the
    notification after LOADING(true) finds the manager loading, and
    [clearError()] ends that. *)
Lemma clearError_stops_loading :
  isLoading (state loading) = true
  /\ isLoading (state (after Call_clearError loading)) = false
  /\ isLoading (state (after Call_clearError loading))
     <> isLoading (state loading).
Proof. vm_compute. repeat split; try reflexivity. discriminate. Qed.


(** C10 on the healthy manager: importing the dataset it already holds. *)
Lemma import_validates_from_cache_witness :
  DATA_UPDATE (Dataset true [100]) default_scenarios
    ∈ transitions (importData "defaults" observed).2
  /\ validationCache observed !! "{menus:[],fixedCosts:[100]}"
     = Some {| isValid := true; errors := []; warnings := [] |}
  /\ validator_calls (importData "defaults" observed).2 = []
  /\ validation_outcomes (importData "defaults" observed).2
     = [[{| isValid := true; errors := []; warnings := [] |}]]
  /\ validationCache (importData "defaults" observed).1.2 = ∅.
Proof.
  assert (Hdata : DATA_UPDATE (Dataset true [100]) default_scenarios
                    ∈ transitions (importData "defaults" observed).2).
  { vm_compute. right. left. }
  split; [exact Hdata|]. split; [vm_compute; reflexivity|].
  destruct (import_validates_from_cache "defaults" observed
              (importData "defaults" observed).1.2
              (importData "defaults" observed).1.1
              (importData "defaults" observed).2
              (Dataset true [100]) default_scenarios
              "{menus:[],fixedCosts:[100]}"
              {| isValid := true; errors := []; warnings := [] |})
    as (Hcalls & _ & Hout & Hempty).
  - vm_compute. reflexivity.
  - exact Hdata.
  - reflexivity.
  - vm_compute. reflexivity.
  - split; [exact Hcalls|]. split; [|exact Hempty].
    apply (Hout (Num 100)). vm_compute. right. right. left.
Defined.

(** Beside C3: a name every object inherits from [Object.prototype] passes
    the guard of [setCurrentScenario] although it is no key of the scenario
    map; the amended C3 leaves such names out. *)
Lemma inherited_name_selected :
  scenarios (state (start corrupt_storage)) !! "toString" = None
  /\ currentScenario
       (state (after (Call_setCurrentScenario "toString") (start corrupt_storage)))
     = "toString".
Proof. vm_compute. split; reflexivity. Qed.

(** ** Further runs on the small engine *)

Lemma observed_reachable : reachable observed.
Proof.
  apply (reach_call (Call_subscribe 0%nat)).
  eapply (reach_new fresh_storage 0%nat). vm_compute. reflexivity.
Qed.

(** X1 on the healthy manager: a labor list with a negative amount. *)
Lemma mutation_rejected_witness :
  error (state (after (Call_updateLabor [Num 5; Num (-1)]) observed))
  = Some "Labor validation failed: Amount must not be negative"
  /\ data (state (after (Call_updateLabor [Num 5; Num (-1)]) observed))
     = data (state observed).
Proof.
  destruct (mutation_rejected (Call_updateLabor [Num 5; Num (-1)]) observed
              "Labor validation failed: Amount must not be negative")
    as (m' & evs & Hrun & _ & _ & Herr & _ & Hdata & _).
  { reflexivity. }
  { vm_compute. reflexivity. }
  unfold after. rewrite Hrun. split; [exact Herr | exact Hdata].
Defined.



(** X4 on the healthy manager: an accepted labor list; the dataset's text
    is in the cache since the construction. *)
Lemma mutation_accepted_witness :
  exists m' evs,
    perform (Call_updateLabor [Num 5]) observed = (Ret tt, m', evs)
    /\ transitions evs
       = [LOADING_UPDATE true;
          DATA_UPDATE (Dataset true [100]) (scenarios (state observed));
          COMPUTATION_UPDATE (Num 100);
          VALIDATION_UPDATE [{| isValid := true; errors := []; warnings := [] |}];
          LOADING_UPDATE false]
    /\ error (state m') = None.
Proof.
  destruct (mutation_accepted (Call_updateLabor [Num 5]) observed
              (Dataset true [100]) (Num 100) (stringify (Dataset true [100]))
              {| isValid := true; errors := []; warnings := [] |}
              (financeEngine observed) (financeEngine observed)
              (financeEngine observed) (financeEngine observed)
              (localStorage observed) (localStorage observed)
              (<["finance_data" := "defaults"]> (localStorage observed))
              (<["finance_data" := "defaults"]> (localStorage observed))
              (Ret tt))
    as (m' & evs & Hrun & Htr & _ & _ & _ & Herr & _).
  - reflexivity.
  - vm_compute. reflexivity.
  - vm_compute. reflexivity.
  - vm_compute. reflexivity.
  - vm_compute. reflexivity.
  - vm_compute. reflexivity.
  - reflexivity.
  - left. vm_compute. reflexivity.
  - exists m', evs. exact (conj Hrun (conj Htr Herr)).
Defined.


(** X7: the first state a subscriber is handed during a mutation. *)
Lemma loading_state_has_no_error_witness :
  error (stamped (LOADING_UPDATE true) observed) = None.
Proof.
  apply (loading_state_has_no_error (Call_updateLabor [Num 5]) observed 0%nat
           (stamped (LOADING_UPDATE true) observed) observed_reachable).
  - vm_compute. left.
  - reflexivity.
Defined.


(** X9: the one entry the construction left in the cache. *)
Lemma cache_holds_validator_outcomes_witness :
  exists d,
    JSON_stringify d = Ret (stringify (Dataset true [100]))
    /\ fdv_validateAllData d = Ret {| isValid := true; errors := []; warnings := [] |}.
Proof.
  apply (cache_holds_validator_outcomes observed (stringify (Dataset true [100]))
           {| isValid := true; errors := []; warnings := [] |} observed_reachable).
  vm_compute. reflexivity.
Defined.





(** X18: a fresh browser. *)
Lemma constructor_loads_witness :
  exists m evs,
    constructor fresh_storage 0 = Ret (m, evs)
    /\ validator_calls evs = [Dataset true [100]]
    /\ validationCache m
       = {[ stringify (Dataset true [100])
            := {| isValid := true; errors := []; warnings := [] |} ]}.
Proof.
  destruct (constructor_loads (E := engine)
              fresh_storage fresh_storage fresh_storage fresh_storage fresh_storage
              (<["finance_data" := "defaults"]> fresh_storage)
              (<["finance_data" := "defaults"]> fresh_storage)
              0%nat
              {| ds := Null; scs := ∅ |}
              {| ds := Dataset true [100]; scs := default_scenarios |}
              {| ds := Dataset true [100]; scs := default_scenarios |}
              {| ds := Dataset true [100]; scs := default_scenarios |}
              {| ds := Dataset true [100]; scs := default_scenarios |}
              {| ds := Dataset true [100]; scs := default_scenarios |}
              (Dataset true [100]) (Num 100) default_scenarios (Ret tt)
              (stringify (Dataset true [100]))
              {| isValid := true; errors := []; warnings := [] |})
    as (m & evs & Hrun & _ & Hcalls & _ & Hcache & _).
  - reflexivity.
  - vm_compute. reflexivity.
  - reflexivity.
  - reflexivity.
  - vm_compute. reflexivity.
  - vm_compute. reflexivity.
  - reflexivity.
  - reflexivity.
  - exists m, evs. exact (conj Hrun (conj Hcalls Hcache)).
Defined.

(** X19: the engine refuses an empty text without a message. *)
Lemma importData_refused_witness :
  exists m' evs,
    importData "" observed = (Ret {| success := false; import_error := None |}, m', evs)
    /\ error (state m') = Some "Import failed".
Proof.
  destruct (importData_refused "" observed {| success := false; import_error := None |}
              (financeEngine observed) (localStorage observed))
    as (m' & evs & Hrun & _ & _ & Herr & _).
  - vm_compute. reflexivity.
  - reflexivity.
  - exists m', evs. split; [exact Hrun|]. apply Herr. left. reflexivity.
Defined.

(** X21 on the healthy manager. *)
Lemma cache_only_grows_witness :
  validationCache (after (Call_updateLabor [Num 5]) observed) = validationCache observed
  \/ exists h v,
       validationCache observed !! h = None
       /\ validationCache (after (Call_updateLabor [Num 5]) observed)
          = <[h := v]> (validationCache observed).
Proof.
  apply (cache_only_grows (Call_updateLabor [Num 5]) observed). reflexivity.
Defined.



(** X25: the stored dataset has no menu list, so the whole-dataset
    validator throws after an accepted sales model. *)
Lemma mutation_validation_skipped_witness :
  exists m' evs,
    perform (Call_updateSalesModel (Num 5)) observed_no_menus = (Ret tt, m', evs)
    /\ error (state m') = None
    /\ validationResults (state m') = validationResults (state observed_no_menus).
Proof.
  destruct (mutation_validation_skipped (Call_updateSalesModel (Num 5))
              observed_no_menus (Dataset false [100]) (Num 100)
              (stringify (Dataset false [100]))
              "Cannot read properties of undefined (reading 'forEach')"
              (financeEngine observed_no_menus) (financeEngine observed_no_menus)
              (financeEngine observed_no_menus) (financeEngine observed_no_menus)
              (localStorage observed_no_menus) (localStorage observed_no_menus)
              (<["finance_data" := "no-menus"]> (localStorage observed_no_menus))
              (<["finance_data" := "no-menus"]> (localStorage observed_no_menus))
              (Ret tt))
    as (m' & evs & Hrun & _ & _ & _ & _ & _ & Hres & Herr & _).
  - reflexivity.
  - vm_compute. reflexivity.
  - vm_compute. reflexivity.
  - vm_compute. reflexivity.
  - vm_compute. reflexivity.
  - vm_compute. reflexivity.
  - reflexivity.
  - vm_compute. reflexivity.
  - reflexivity.
  - exists m', evs. exact (conj Hrun (conj Herr Hres)).
Defined.

(** ** Runs on the fragile engine *)

Import Fragile.


